(** * HRMS Lite backend: employee directory and attendance ledger

    A shallow embedding of [app/services/employee_service.py],
    [app/services/attendance_service.py], the two table declarations in
    [app/models/] and the three routers of [app/api/], followed by the
    properties of these operations.

    The relational store is a pair of tables (lists of rows in insertion
    order); a SQLAlchemy session is a state that carries the committed
    store, the unit of work that has not been flushed yet and the list of
    statements sent so far.  Service methods are programs of a small
    state-and-exception monad over that session. *)

From Stdlib Require Import ZArith List String Ascii Bool Lia.
From Stdlib Require Import Floats.SpecFloat.
From Stdlib Require Import Sorting.Sorted Sorting.Permutation.
Import ListNotations.

Local Open Scope string_scope.
Local Open Scope list_scope.
Local Open Scope Z_scope.

(** ** Python numbers *)

Module Py.

(** Python's [float] is IEEE 754 binary64. *)
Definition prec : Z := 53.
Definition emax : Z := 1024.
Definition float : Type := spec_float.

(** [float(n)] for an integer [n], rounded to nearest even. *)
Definition float_of_int (n : Z) : float := binary_normalize prec emax n 0 false.

Definition fmul (x y : float) : float := SFmul prec emax x y.
Definition fdiv (x y : float) : float := SFdiv prec emax x y.

(** The literal [0.0]. *)
Definition fzero : float := S754_zero false.

(** An integer as an exact, not yet rounded, binary number. *)
Definition exact_int (n : Z) : float :=
  match n with
  | Z0 => S754_zero false
  | Zpos p => S754_finite false p 0
  | Zneg p => S754_finite true p 0
  end.

(** [a / b] on integers with [b <> 0]: the float nearest to the exact
    quotient (one rounding, also for integers beyond 2^53). *)
Definition int_truediv (a b : Z) : float := fdiv (exact_int a) (exact_int b).

(** Rounding of the rational [n / d] ([d > 0]) to the nearest integer,
    ties to the even one. *)
Definition round_half_even (n d : Z) : Z :=
  let q := n / d in
  let r := n mod d in
  match Z.compare (2 * r) d with
  | Lt => q
  | Gt => q + 1
  | Eq => if Z.even q then q else q + 1
  end.

(** [round(x, 2)] on a float: the decimal with two fractional digits
    nearest to the exact value of [x] (ties to even), converted back to
    the nearest float.  Zeros, infinities, NaN and floats without a
    fractional part are returned as they are. *)
Definition round2 (x : float) : float :=
  match x with
  | S754_finite s m (Zneg p) =>
      match round_half_even (Zpos m * 100) (2 ^ Zpos p) with
      | Z0 => S754_zero s
      | k => fdiv (exact_int (if s then - k else k)) (exact_int 100)
      end
  | _ => x
  end.

(** A number as a Python expression yields it: [int] or [float]. *)
Inductive num : Type :=
| Int (n : Z)
| Float (x : float).

(** [round(v, 2)]: an [int] is returned unchanged (two digits after
    the point never alter an integer), a [float] is rounded. *)
Definition round_ndigits2 (v : num) : num :=
  match v with
  | Int n => Int n
  | Float x => Float (round2 x)
  end.

(** [n == x] for an integer and a float: equality of the exact values. *)
Definition int_float_eqb (n : Z) (x : float) : bool :=
  match x with
  | S754_zero _ => n =? 0
  | S754_finite s m e =>
      let v := if s then Zneg m else Zpos m in
      match e with
      | Zneg p => n * 2 ^ Zpos p =? v
      | _ => n =? v * 2 ^ e
      end
  | _ => false
  end.

(** [a == b] on numbers. *)
Definition eqb (a b : num) : bool :=
  match a, b with
  | Int m, Int n => m =? n
  | Float x, Float y => SFeqb x y
  | Int n, Float x => int_float_eqb n x
  | Float x, Int n => int_float_eqb n x
  end.

(** Coercion of a number to a [float] field of a pydantic model. *)
Definition to_float (v : num) : float :=
  match v with
  | Int n => float_of_int n
  | Float x => x
  end.

End Py.

(** ** Tables ([app/models]) *)

(** [AttendanceStatus]: the two status values of the model layer. *)
Module AttendanceStatus.
Inductive t : Type := PRESENT | ABSENT.
Definition value (v : t) : string :=
  match v with
  | PRESENT => "present"
  | ABSENT => "absent"
  end.
End AttendanceStatus.

(** A row of [employees].  [id] is the primary key (a UUID string),
    [employee_id] the external employee code.  Timestamps are seconds of
    the store's clock. *)
Module Employee.
Record t : Type := Build {
  id : string;
  employee_id : string;
  full_name : string;
  email : string;
  department : string;
  created_at : Z;
  updated_at : Z
}.
End Employee.

(** A row of [attendance].  [employee_id] refers to [Employee.id]; [date]
    is a calendar date as its proleptic ordinal; [status] is a plain
    string column. *)
Module Attendance.
Record t : Type := Build {
  id : string;
  employee_id : string;
  date : Z;
  status : string;
  created_at : Z;
  updated_at : Z
}.

Definition with_status (v : string) (now : Z) (a : t) : t :=
  Build (id a) (employee_id a) (date a) v (created_at a) now.
End Attendance.

(** ** The store and the session *)

Record Store : Type := {
  employees : list Employee.t;
  attendance : list Attendance.t
}.

Definition empty_store : Store := {| employees := []; attendance := [] |}.

(** What a session holds between [add], attribute assignment or [delete]
    and the next [commit]. *)
Inductive change : Type :=
| Add_employee (e : Employee.t)
| Add_attendance (a : Attendance.t)
| Set_status (pk : string) (v : string) (now : Z)
| Delete_employee (pk : string).

Inductive table : Type := employees_table | attendance_table.

Inductive stmt : Type :=
| Select (t : table)
| Insert (t : table)
| Update (t : table)
| Delete (t : table).

Record Session : Type := {
  store : Store;
  pending : list change;
  log : list stmt
}.

(** The session a request starts with ([get_db]). *)
Definition open_session (s : Store) : Session :=
  {| store := s; pending := []; log := [] |}.

(** *** Constraints of the schema *)

Definition has_employee_pk (s : Store) (pk : string) : bool :=
  existsb (fun e => String.eqb (Employee.id e) pk) (employees s).

Definition has_employee_code (s : Store) (code : string) : bool :=
  existsb (fun e => String.eqb (Employee.employee_id e) code) (employees s).

Definition has_employee_email (s : Store) (mail : string) : bool :=
  existsb (fun e => String.eqb (Employee.email e) mail) (employees s).

Definition has_attendance_pk (s : Store) (pk : string) : bool :=
  existsb (fun a => String.eqb (Attendance.id a) pk) (attendance s).

(** The key of the constraint [unique_employee_date] on
    [(employee_id, date)]. *)
Definition same_employee_date (emp : string) (d : Z) (a : Attendance.t) : bool :=
  String.eqb (Attendance.employee_id a) emp && Z.eqb (Attendance.date a) d.

Definition has_employee_date (s : Store) (emp : string) (d : Z) : bool :=
  existsb (same_employee_date emp d) (attendance s).

(** One statement of a flush.  [None] is a constraint violation
    (SQLAlchemy's [IntegrityError]).  The store enforces what the two
    models declare: the primary keys, the unique [employee_id] and
    [email] of an employee, the unique [(employee_id, date)] of an
    attendance row, and the foreign key of an attendance row.  The
    lengths of the string columns are not checked (SQLite, the store of
    the default [database_url], does not check them).  An UPDATE or DELETE
    addresses rows by primary key; deleting an employee deletes its
    attendance rows (relationship cascade all, delete-orphan; foreign key
    ON DELETE CASCADE). *)
Definition apply_change (c : change) (s : Store) : option Store :=
  match c with
  | Add_employee e =>
      if has_employee_pk s (Employee.id e)
         || has_employee_code s (Employee.employee_id e)
         || has_employee_email s (Employee.email e)
      then None
      else Some {| employees := employees s ++ [e]; attendance := attendance s |}
  | Add_attendance a =>
      if has_attendance_pk s (Attendance.id a)
         || has_employee_date s (Attendance.employee_id a) (Attendance.date a)
         || negb (has_employee_pk s (Attendance.employee_id a))
      then None
      else Some {| employees := employees s; attendance := attendance s ++ [a] |}
  | Set_status pk v now =>
      Some {| employees := employees s;
              attendance :=
                map (fun a => if String.eqb (Attendance.id a) pk
                              then Attendance.with_status v now a else a)
                    (attendance s) |}
  | Delete_employee pk =>
      Some {| employees :=
                filter (fun e => negb (String.eqb (Employee.id e) pk)) (employees s);
              attendance :=
                filter (fun a => negb (String.eqb (Attendance.employee_id a) pk))
                       (attendance s) |}
  end.

Fixpoint flush (cs : list change) (s : Store) : option Store :=
  match cs with
  | [] => Some s
  | c :: cs' =>
      match apply_change c s with
      | Some s' => flush cs' s'
      | None => None
      end
  end.

Definition stmt_of_change (c : change) : stmt :=
  match c with
  | Add_employee _ => Insert employees_table
  | Add_attendance _ => Insert attendance_table
  | Set_status _ _ _ => Update attendance_table
  | Delete_employee _ => Delete employees_table
  end.

(** ** Exceptions and the monad of service code *)

Inductive exn : Type :=
| HTTPException (status_code : Z) (detail : string)
| IntegrityError
| InvalidRequestError
| ZeroDivisionError.

Module status.
Definition HTTP_404_NOT_FOUND : Z := 404.
Definition HTTP_409_CONFLICT : Z := 409.
End status.

Inductive outcome (A : Type) : Type :=
| Return (a : A)
| Raise (e : exn).
Arguments Return {A} a.
Arguments Raise {A} e.

Definition M (A : Type) : Type := Session -> outcome A * Session.

Definition ret {A} (a : A) : M A := fun db => (Return a, db).

Definition bind {A B} (c : M A) (k : A -> M B) : M B :=
  fun db =>
    match c db with
    | (Return a, db') => k a db'
    | (Raise e, db') => (Raise e, db')
    end.

Definition raise {A} (e : exn) : M A := fun db => (Raise e, db).

(** [try: body except IntegrityError: handler] *)
Definition try_except_IntegrityError {A} (body handler : M A) : M A :=
  fun db =>
    match body db with
    | (Raise IntegrityError, db') => handler db'
    | r => r
    end.

Declare Scope py_scope.
Delimit Scope py_scope with py.
Notation "x <- c ;; k" := (bind c (fun x => k))
  (at level 61, c at next level, right associativity) : py_scope.
Notation "c ;; k" := (bind c (fun _ => k))
  (at level 61, right associativity) : py_scope.
Local Open Scope py_scope.

Definition sent (q : stmt) : M unit :=
  fun db => (Return tt, {| store := store db; pending := pending db; log := log db ++ [q] |}).

Definition gets {A} (f : Store -> A) : M A := fun db => (Return (f (store db)), db).

(** *** Session operations *)

(** [db.query(Employee).filter(p).first()] *)
Definition query_employee_first (p : Employee.t -> bool) : M (option Employee.t) :=
  sent (Select employees_table) ;;
  gets (fun s => find p (employees s)).

(** [db.query(Attendance).filter(p).first()] *)
Definition query_attendance_first (p : Attendance.t -> bool) : M (option Attendance.t) :=
  sent (Select attendance_table) ;;
  gets (fun s => find p (attendance s)).

(** [db.query(func.count(Employee.id)).scalar() or 0] *)
Definition query_employee_count : M Z :=
  sent (Select employees_table) ;;
  gets (fun s => Z.of_nat (List.length (employees s))).

(** [db.query(func.count(Attendance.id)).filter(p).scalar() or 0] *)
Definition query_attendance_count (p : Attendance.t -> bool) : M Z :=
  sent (Select attendance_table) ;;
  gets (fun s => Z.of_nat (List.length (filter p (attendance s)))).

(** [ORDER BY key DESC]: rows with equal keys stay in table order. *)
Fixpoint insert_desc {A} (key : A -> Z) (x : A) (l : list A) : list A :=
  match l with
  | [] => [x]
  | y :: l' => if key y <? key x then x :: l else y :: insert_desc key x l'
  end.

Definition order_by_desc {A} (key : A -> Z) (l : list A) : list A :=
  fold_right (insert_desc key) [] l.

(** [db.query(Attendance).filter(p).order_by(Attendance.date.desc()).all()] *)
Definition query_attendance_all (p : Attendance.t -> bool) : M (list Attendance.t) :=
  sent (Select attendance_table) ;;
  gets (fun s => order_by_desc Attendance.date (filter p (attendance s))).

(** [db.query(Employee).order_by(Employee.created_at.desc()).all()] *)
Definition query_employee_all : M (list Employee.t) :=
  sent (Select employees_table) ;;
  gets (fun s => order_by_desc Employee.created_at (employees s)).

(** The relationship [Attendance.employee]: the row of [employees] whose
    primary key is the record's [employee_id], if any. *)
Definition relationship_employee (record : Attendance.t) : M (option Employee.t) :=
  gets (fun s =>
          find (fun e => String.eqb (Employee.id e) (Attendance.employee_id record))
               (employees s)).

Definition register (c : change) : M unit :=
  fun db => (Return tt, {| store := store db; pending := pending db ++ [c]; log := log db |}).

(** [db.add(Employee(...))]: the primary key is the UUID drawn by the
    column default and both timestamps are the clock of the INSERT. *)
Definition db_add_employee (e : Employee.t) : M unit := register (Add_employee e).

(** [db.add(Attendance(...))] *)
Definition db_add_attendance (a : Attendance.t) : M unit := register (Add_attendance a).

(** [existing.status = status_value] on a loaded row: nothing is written
    when the attribute keeps its value; otherwise the row is dirty and its
    [updated_at] takes the clock of the UPDATE ([onupdate]). *)
Definition set_status (existing : Attendance.t) (status_value : string) (now : Z) : M unit :=
  if String.eqb (Attendance.status existing) status_value
  then ret tt
  else register (Set_status (Attendance.id existing) status_value now).

(** [db.delete(employee)] *)
Definition db_delete_employee (e : Employee.t) : M unit :=
  register (Delete_employee (Employee.id e)).

(** [db.commit()]: flush the unit of work and commit.  A constraint
    violation raises [IntegrityError] and nothing of the flush reaches the
    store; the unit of work stays as it was until [rollback]. *)
Definition db_commit : M unit :=
  fun db =>
    let db' := {| store := store db; pending := pending db;
                  log := log db ++ map stmt_of_change (pending db) |} in
    match flush (pending db) (store db) with
    | Some s' => (Return tt, {| store := s'; pending := []; log := log db' |})
    | None => (Raise IntegrityError, db')
    end.

(** [db.rollback()] *)
Definition db_rollback : M unit :=
  fun db => (Return tt, {| store := store db; pending := []; log := log db |}).

(** [db.refresh(obj)]: the row is read again by primary key;
    [InvalidRequestError] when it is gone. *)
Definition db_refresh_attendance (a : Attendance.t) : M Attendance.t :=
  sent (Select attendance_table) ;;
  r <- gets (fun s => find (fun r => String.eqb (Attendance.id r) (Attendance.id a))
                           (attendance s)) ;;
  match r with
  | Some r => ret r
  | None => raise InvalidRequestError
  end.

Definition db_refresh_employee (e : Employee.t) : M Employee.t :=
  sent (Select employees_table) ;;
  r <- gets (fun s => find (fun r => String.eqb (Employee.id r) (Employee.id e))
                           (employees s)) ;;
  match r with
  | Some r => ret r
  | None => raise InvalidRequestError
  end.

(** Truth value of an [Optional[...]] holding an ORM object, a dict or a
    date: [None] is false, anything else true. *)
Definition truthy {A} (o : option A) : bool :=
  match o with
  | Some _ => true
  | None => false
  end.

Fixpoint for_each {A B} (f : A -> M B) (l : list A) : M (list B) :=
  match l with
  | [] => ret []
  | x :: l' =>
      y <- f x ;;
      ys <- for_each f l' ;;
      ret (y :: ys)
  end.

Definition PRESENT_value : string := AttendanceStatus.value AttendanceStatus.PRESENT.
Definition ABSENT_value : string := AttendanceStatus.value AttendanceStatus.ABSENT.

(** ** [app/services/employee_service.py] *)

Module EmployeeService.

(** The dict of [get_all_employees] and [get_employee_with_stats]. *)
Module EmployeeDict.
Record t : Type := Build {
  id : string;
  employee_id : string;
  full_name : string;
  email : string;
  department : string;
  created_at : Z;
  updated_at : Z;
  present_days : Z;
  absent_days : Z
}.
End EmployeeDict.

Definition get_all_employees : M (list EmployeeDict.t) :=
  employees <- query_employee_all ;;
  for_each
    (fun emp =>
       present_days <- query_attendance_count
         (fun a => String.eqb (Attendance.employee_id a) (Employee.id emp)
                   && String.eqb (Attendance.status a) PRESENT_value) ;;
       absent_days <- query_attendance_count
         (fun a => String.eqb (Attendance.employee_id a) (Employee.id emp)
                   && String.eqb (Attendance.status a) ABSENT_value) ;;
       ret (EmployeeDict.Build (Employee.id emp) (Employee.employee_id emp)
              (Employee.full_name emp) (Employee.email emp) (Employee.department emp)
              (Employee.created_at emp) (Employee.updated_at emp)
              present_days absent_days))
    employees.

Definition get_employee_with_stats (employee_uuid : string) : M (option EmployeeDict.t) :=
  emp <- query_employee_first (fun e => String.eqb (Employee.id e) employee_uuid) ;;
  match emp with
  | None => ret None
  | Some emp =>
      present_days <- query_attendance_count
        (fun a => String.eqb (Attendance.employee_id a) (Employee.id emp)
                  && String.eqb (Attendance.status a) PRESENT_value) ;;
      absent_days <- query_attendance_count
        (fun a => String.eqb (Attendance.employee_id a) (Employee.id emp)
                  && String.eqb (Attendance.status a) ABSENT_value) ;;
      ret (Some (EmployeeDict.Build (Employee.id emp) (Employee.employee_id emp)
                   (Employee.full_name emp) (Employee.email emp) (Employee.department emp)
                   (Employee.created_at emp) (Employee.updated_at emp)
                   present_days absent_days))
  end.

Definition get_employee_by_id (employee_uuid : string) : M (option Employee.t) :=
  query_employee_first (fun e => String.eqb (Employee.id e) employee_uuid).

Definition get_total_count : M Z := query_employee_count.

Definition delete_employee (employee_uuid : string) : M bool :=
  employee <- get_employee_by_id employee_uuid ;;
  match employee with
  | None =>
      raise (HTTPException status.HTTP_404_NOT_FOUND
               ("Employee with ID '" ++ employee_uuid ++ "' not found")%string)
  | Some employee =>
      db_delete_employee employee ;;
      db_commit ;;
      ret true
  end.

Section Case.

(** [str.upper] and [str.lower]. *)
Variables upper lower : string -> string.

Definition get_employee_by_employee_id (employee_id : string) : M (option Employee.t) :=
  query_employee_first
    (fun e => String.eqb (Employee.employee_id e) (upper employee_id)).

Definition get_employee_by_email (email : string) : M (option Employee.t) :=
  query_employee_first (fun e => String.eqb (Employee.email e) (lower email)).

(** The [try] block of [create_employee].  [uuid4] is the UUID the
    column default draws for the new row and [now] the clock of the
    INSERT. *)
Definition create_employee_insert
    (employee_id full_name email department : string) (uuid4 : string) (now : Z)
  : M Employee.t :=
  try_except_IntegrityError
    (let employee :=
       Employee.Build uuid4 (upper employee_id) full_name (lower email) department
                      now now in
     db_add_employee employee ;;
     db_commit ;;
     employee <- db_refresh_employee employee ;;
     ret employee)
    (db_rollback ;;
     raise (HTTPException status.HTTP_409_CONFLICT
              "Employee with this ID or email already exists")).

Definition create_employee
    (employee_id full_name email department : string) (uuid4 : string) (now : Z)
  : M Employee.t :=
  by_code <- get_employee_by_employee_id employee_id ;;
  (if truthy by_code
   then raise (HTTPException status.HTTP_409_CONFLICT
                 ("Employee with ID '" ++ employee_id ++ "' already exists")%string)
   else ret tt) ;;
  by_email <- get_employee_by_email email ;;
  (if truthy by_email
   then raise (HTTPException status.HTTP_409_CONFLICT
                 ("Employee with email '" ++ email ++ "' already exists")%string)
   else ret tt) ;;
  create_employee_insert employee_id full_name email department uuid4 now.

End Case.

End EmployeeService.

(** ** [app/services/attendance_service.py] *)

Module AttendanceService.

(** The dict of [_format_record]. *)
Module RecordDict.
Record t : Type := Build {
  id : string;
  employee_id : string;
  employee_name : option string;
  employee_code : option string;
  date : Z;
  status : string;
  created_at : Z;
  updated_at : Z
}.
End RecordDict.

(** The dict of [get_attendance_stats]. *)
Module StatsDict.
Record t : Type := Build {
  employee_id : string;
  employee_name : string;
  total_days : Z;
  present_days : Z;
  absent_days : Z;
  attendance_percentage : Py.num
}.
End StatsDict.

(** The dict of [get_today_attendance_count]. *)
Module TodayDict.
Record t : Type := Build {
  total_employees : Z;
  marked_today : Z;
  present_today : Z;
  absent_today : Z;
  unmarked_today : Z;
  attendance_rate : Py.num
}.
End TodayDict.

Definition _format_record (record : Attendance.t) : M RecordDict.t :=
  employee <- relationship_employee record ;;
  ret (RecordDict.Build
         (Attendance.id record)
         (Attendance.employee_id record)
         (option_map Employee.full_name employee)
         (option_map Employee.employee_id employee)
         (Attendance.date record)
         (Attendance.status record)
         (Attendance.created_at record)
         (Attendance.updated_at record)).

(** The two optional [filter] calls on the date. *)
Definition date_bounds (start_date end_date : option Z) (a : Attendance.t) : bool :=
  match start_date with
  | Some d => d <=? Attendance.date a
  | None => true
  end
  &&
  match end_date with
  | Some d => Attendance.date a <=? d
  | None => true
  end.

Definition get_all_attendance (start_date end_date : option Z) : M (list RecordDict.t) :=
  records <- query_attendance_all (date_bounds start_date end_date) ;;
  for_each _format_record records.

Definition get_attendance_by_employee
    (employee_uuid : string) (start_date end_date : option Z) : M (list RecordDict.t) :=
  employee <- query_employee_first (fun e => String.eqb (Employee.id e) employee_uuid) ;;
  (if negb (truthy employee)
   then raise (HTTPException status.HTTP_404_NOT_FOUND
                 ("Employee with ID '" ++ employee_uuid ++ "' not found")%string)
   else ret tt) ;;
  records <- query_attendance_all
    (fun a => String.eqb (Attendance.employee_id a) employee_uuid
              && date_bounds start_date end_date a) ;;
  for_each _format_record records.

(** The [try] block of [mark_attendance].  [uuid4] is the UUID the
    column default draws for the new row and [now] the clock of the
    INSERT. *)
Definition mark_attendance_insert
    (employee_id : string) (attendance_date : Z) (status_value : string)
    (uuid4 : string) (now : Z) : M RecordDict.t :=
  try_except_IntegrityError
    (let attendance :=
       Attendance.Build uuid4 employee_id attendance_date status_value now now in
     db_add_attendance attendance ;;
     db_commit ;;
     attendance <- db_refresh_attendance attendance ;;
     _format_record attendance)
    (db_rollback ;;
     raise (HTTPException status.HTTP_409_CONFLICT
              "Attendance for this date already exists")).

Definition mark_attendance
    (employee_id : string) (attendance_date : Z) (status_value : string)
    (uuid4 : string) (now : Z) : M RecordDict.t :=
  employee <- query_employee_first (fun e => String.eqb (Employee.id e) employee_id) ;;
  (if negb (truthy employee)
   then raise (HTTPException status.HTTP_404_NOT_FOUND
                 ("Employee with ID '" ++ employee_id ++ "' not found")%string)
   else ret tt) ;;
  existing <- query_attendance_first (same_employee_date employee_id attendance_date) ;;
  match existing with
  | Some existing =>
      set_status existing status_value now ;;
      db_commit ;;
      existing <- db_refresh_attendance existing ;;
      _format_record existing
  | None =>
      mark_attendance_insert employee_id attendance_date status_value uuid4 now
  end.

(** [a / b] on integers. *)
Definition truediv (a b : Z) : M Py.float :=
  if b =? 0 then raise ZeroDivisionError
  else ret (Py.int_truediv a b).

Definition get_attendance_stats (employee_uuid : string) : M StatsDict.t :=
  employee <- query_employee_first (fun e => String.eqb (Employee.id e) employee_uuid) ;;
  match employee with
  | None =>
      raise (HTTPException status.HTTP_404_NOT_FOUND
               ("Employee with ID '" ++ employee_uuid ++ "' not found")%string)
  | Some employee =>
      total_records <- query_attendance_count
        (fun a => String.eqb (Attendance.employee_id a) employee_uuid) ;;
      present_count <- query_attendance_count
        (fun a => String.eqb (Attendance.employee_id a) employee_uuid
                  && String.eqb (Attendance.status a) PRESENT_value) ;;
      absent_count <- query_attendance_count
        (fun a => String.eqb (Attendance.employee_id a) employee_uuid
                  && String.eqb (Attendance.status a) ABSENT_value) ;;
      attendance_percentage <-
        (if total_records >? 0
         then q <- truediv present_count total_records ;;
              ret (Py.Float (Py.fmul q (Py.float_of_int 100)))
         else ret (Py.Float Py.fzero)) ;;
      ret (StatsDict.Build employee_uuid (Employee.full_name employee)
             total_records present_count absent_count
             (Py.round_ndigits2 attendance_percentage))
  end.

(** [today] is the value of [date.today()]. *)
Definition get_today_attendance_count (today : Z) : M TodayDict.t :=
  total_employees <- query_employee_count ;;
  present_today <- query_attendance_count
    (fun a => Z.eqb (Attendance.date a) today
              && String.eqb (Attendance.status a) PRESENT_value) ;;
  absent_today <- query_attendance_count
    (fun a => Z.eqb (Attendance.date a) today
              && String.eqb (Attendance.status a) ABSENT_value) ;;
  let marked_today := present_today + absent_today in
  attendance_rate <-
    (if total_employees >? 0
     then q <- truediv present_today total_employees ;;
          ret (Py.Float (Py.fmul q (Py.float_of_int 100)))
     else ret (Py.Int 0)) ;;
  ret (TodayDict.Build total_employees marked_today present_today absent_today
         (total_employees - marked_today)
         (Py.round_ndigits2 attendance_rate)).

End AttendanceService.

(** ** [app/api]: the endpoints the properties below mention *)

Module Api.

(** [AttendanceStatusEnum] of [api/attendance.py]. *)
Module AttendanceStatusEnum.
Inductive t : Type := PRESENT | ABSENT.
Definition value (v : t) : string :=
  match v with
  | PRESENT => "present"
  | ABSENT => "absent"
  end.
End AttendanceStatusEnum.

Module AttendanceCreate.
Record t : Type := Build {
  employee_id : string;
  date : Z;
  status : AttendanceStatusEnum.t
}.
End AttendanceCreate.

Module AttendanceListResponse.
Record t : Type := Build {
  records : list AttendanceService.RecordDict.t;
  total : Z
}.
End AttendanceListResponse.

Module DashboardStats.
Record t : Type := Build {
  total_employees : Z;
  marked_today : Z;
  present_today : Z;
  absent_today : Z;
  unmarked_today : Z;
  attendance_rate : Py.float
}.
End DashboardStats.

Module MessageResponse.
Record t : Type := Build {
  message : string;
  success : bool
}.
End MessageResponse.

(** [POST /attendance] *)
Definition mark_attendance (attendance_data : AttendanceCreate.t) (uuid4 : string) (now : Z)
  : M AttendanceService.RecordDict.t :=
  AttendanceService.mark_attendance
    (AttendanceCreate.employee_id attendance_data)
    (AttendanceCreate.date attendance_data)
    (AttendanceStatusEnum.value (AttendanceCreate.status attendance_data))
    uuid4 now.

(** [GET /attendance/employee/{employee_id}] *)
Definition get_employee_attendance
    (employee_id : string) (start_date end_date : option Z) : M AttendanceListResponse.t :=
  records <- AttendanceService.get_attendance_by_employee employee_id start_date end_date ;;
  ret (AttendanceListResponse.Build records (Z.of_nat (List.length records))).

(** [GET /employees/{employee_id}] *)
Definition get_employee (employee_id : string) : M EmployeeService.EmployeeDict.t :=
  employee_data <- EmployeeService.get_employee_with_stats employee_id ;;
  match employee_data with
  | None =>
      raise (HTTPException status.HTTP_404_NOT_FOUND
               ("Employee with ID '" ++ employee_id ++ "' not found")%string)
  | Some employee_data => ret employee_data
  end.

(** [DELETE /employees/{employee_id}] *)
Definition delete_employee (employee_id : string) : M MessageResponse.t :=
  EmployeeService.delete_employee employee_id ;;
  ret (MessageResponse.Build "Employee deleted successfully" true).

(** [GET /dashboard]: the response model [DashboardStats] declares
    [attendance_rate] a float, so an integer rate is converted. *)
Definition get_dashboard_stats (today : Z) : M DashboardStats.t :=
  stats <- AttendanceService.get_today_attendance_count today ;;
  ret (DashboardStats.Build
         (AttendanceService.TodayDict.total_employees stats)
         (AttendanceService.TodayDict.marked_today stats)
         (AttendanceService.TodayDict.present_today stats)
         (AttendanceService.TodayDict.absent_today stats)
         (AttendanceService.TodayDict.unmarked_today stats)
         (Py.to_float (AttendanceService.TodayDict.attendance_rate stats))).

Module TodayAttendance.
Record t : Type := Build {
  attendance : list AttendanceService.RecordDict.t;
  total : Z
}.
End TodayAttendance.

Module AttendanceStats.
Record t : Type := Build {
  employee_id : string;
  employee_name : string;
  total_days : Z;
  present_days : Z;
  absent_days : Z;
  attendance_percentage : Py.float
}.
End AttendanceStats.

Module EmployeeListResponse.
Record t : Type := Build {
  employees : list EmployeeService.EmployeeDict.t;
  total : Z
}.
End EmployeeListResponse.

(** [GET /attendance/today]; [today] is the value of [date.today()]. *)
Definition get_today_attendance (today : Z) : M TodayAttendance.t :=
  records <- AttendanceService.get_all_attendance (Some today) (Some today) ;;
  ret (TodayAttendance.Build records (Z.of_nat (List.length records))).

(** [GET /attendance] *)
Definition get_all_attendance (start_date end_date : option Z) : M AttendanceListResponse.t :=
  records <- AttendanceService.get_all_attendance start_date end_date ;;
  ret (AttendanceListResponse.Build records (Z.of_nat (List.length records))).

(** [GET /attendance/stats/{employee_id}]: the response model declares
    [attendance_percentage] a float. *)
Definition get_attendance_stats (employee_id : string) : M AttendanceStats.t :=
  stats <- AttendanceService.get_attendance_stats employee_id ;;
  ret (AttendanceStats.Build
         (AttendanceService.StatsDict.employee_id stats)
         (AttendanceService.StatsDict.employee_name stats)
         (AttendanceService.StatsDict.total_days stats)
         (AttendanceService.StatsDict.present_days stats)
         (AttendanceService.StatsDict.absent_days stats)
         (Py.to_float (AttendanceService.StatsDict.attendance_percentage stats))).

(** [GET /employees] *)
Definition get_all_employees : M EmployeeListResponse.t :=
  employees <- EmployeeService.get_all_employees ;;
  ret (EmployeeListResponse.Build employees (Z.of_nat (List.length employees))).

Section Case.

Variables upper lower : string -> string.

(** [POST /employees]: the response carries zero counts. *)
Definition create_employee
    (employee_id full_name email department : string) (uuid4 : string) (now : Z)
  : M EmployeeService.EmployeeDict.t :=
  employee <- EmployeeService.create_employee upper lower
                employee_id full_name email department uuid4 now ;;
  ret (EmployeeService.EmployeeDict.Build
         (Employee.id employee) (Employee.employee_id employee)
         (Employee.full_name employee) (Employee.email employee)
         (Employee.department employee)
         (Employee.created_at employee) (Employee.updated_at employee)
         0 0).

End Case.

End Api.

(** ** [app/main.py]: what a request is answered with *)

Module Main.

(** The answer to a request: the body of a success, or the JSON of an
    error with its [detail] and, from the handler below, an
    [error_code]. *)
Inductive response (A : Type) : Type :=
| Success (status_code : Z) (body : A)
| Failure (status_code : Z) (detail : string) (error_code : option string).
Arguments Success {A} status_code body.
Arguments Failure {A} status_code detail error_code.

(** [global_exception_handler], registered for [Exception]. *)
Definition global_exception_handler {A} (exc : exn) : response A :=
  Failure 500 "An unexpected error occurred. Please try again later."
          (Some "INTERNAL_SERVER_ERROR").

(** A route with success status [status_code]: an [HTTPException] is
    answered with its own status and detail, any other exception goes to
    [global_exception_handler]. *)
Definition route {A} (status_code : Z) (r : outcome A) : response A :=
  match r with
  | Return body => Success status_code body
  | Raise (HTTPException code detail) => Failure code detail None
  | Raise exc => global_exception_handler exc
  end.

Definition HTTP_200_OK : Z := 200.
Definition HTTP_201_CREATED : Z := 201.

Definition status_code_of {A} (r : response A) : Z :=
  match r with
  | Success code _ => code
  | Failure code _ _ => code
  end.

End Main.

(** ** Vocabulary of the properties *)

(** *** Requests and sessions *)

(** Running a service method as one request on a store. *)
Definition request {A} (c : M A) (s : Store) : outcome A * Session := c (open_session s).

(** The session after a request that sent the statements [lg] and left
    nothing unflushed. *)
Definition closed_session (s : Store) (lg : list stmt) : Session :=
  {| store := s; pending := []; log := lg |}.

(** The session of a request that only looked an employee up. *)
Definition only_employee_lookup (s : Store) : Session :=
  closed_session s [Select employees_table].

(** The statements [mark_attendance] has sent when it reaches its [try]
    block, those of a statistics request and those of a summary request. *)
Definition mark_reads : list stmt := [Select employees_table; Select attendance_table].

Definition stats_log : list stmt :=
  [Select employees_table; Select attendance_table; Select attendance_table;
   Select attendance_table].

Definition today_log : list stmt :=
  [Select employees_table; Select attendance_table; Select attendance_table].

(** *** The exceptions the services raise *)

(** The 404 for an unknown employee. *)
Definition not_found (employee_id : string) : exn :=
  HTTPException status.HTTP_404_NOT_FOUND
    ("Employee with ID '" ++ employee_id ++ "' not found")%string.

(** The 409 of the [except IntegrityError] branch of [create_employee]
    and of [mark_attendance]. *)
Definition employee_conflict : exn :=
  HTTPException status.HTTP_409_CONFLICT "Employee with this ID or email already exists".

Definition attendance_conflict : exn :=
  HTTPException status.HTTP_409_CONFLICT "Attendance for this date already exists".

(** Whether an exception is the Conflict kind: an HTTPException with
    status 409. *)
Definition is_conflict (e : exn) : bool :=
  match e with
  | HTTPException code _ => code =? status.HTTP_409_CONFLICT
  | _ => false
  end.

(** *** Rows and constraints *)

(** The rows of the ledger for one employee, and for one
    [(employee, date)] key. *)
Definition records_of (s : Store) (emp : string) : list Attendance.t :=
  filter (fun a => String.eqb (Attendance.employee_id a) emp) (attendance s).

Definition records_at (s : Store) (emp : string) (d : Z) : list Attendance.t :=
  filter (same_employee_date emp d) (attendance s).

Definition employee_date (a : Attendance.t) : string * Z :=
  (Attendance.employee_id a, Attendance.date a).

(** The composite uniqueness constraint of [attendance] as a property of
    a store. *)
Definition unique_employee_date (s : Store) : Prop :=
  NoDup (map employee_date (attendance s)).

(** All constraints the schema declares. *)
Record consistent (s : Store) : Prop := {
  employee_pk : NoDup (map Employee.id (employees s));
  employee_code_unique : NoDup (map Employee.employee_id (employees s));
  employee_email_unique : NoDup (map Employee.email (employees s));
  attendance_pk : NoDup (map Attendance.id (attendance s));
  attendance_key_unique : unique_employee_date s;
  attendance_fk :
    forall a, In a (attendance s) -> has_employee_pk s (Attendance.employee_id a) = true
}.

(** Whether the store refuses the INSERT of an attendance row. *)
Definition refuses_attendance (s : Store) (a : Attendance.t) : bool :=
  has_attendance_pk s (Attendance.id a)
  || has_employee_date s (Attendance.employee_id a) (Attendance.date a)
  || negb (has_employee_pk s (Attendance.employee_id a)).

(** The store after the UPDATE of the status of the row [pk], after the
    INSERT of an attendance row, and after the DELETE of the employee
    [pk] with the records that employee owns. *)
Definition with_status_set (s : Store) (pk v : string) (now : Z) : Store :=
  {| employees := employees s;
     attendance :=
       map (fun a => if String.eqb (Attendance.id a) pk
                     then Attendance.with_status v now a else a)
           (attendance s) |}.

Definition with_attendance (s : Store) (a : Attendance.t) : Store :=
  {| employees := employees s; attendance := attendance s ++ [a] |}.

Definition without_employee (s : Store) (pk : string) : Store :=
  {| employees := filter (fun e => negb (String.eqb (Employee.id e) pk)) (employees s);
     attendance :=
       filter (fun a => negb (String.eqb (Attendance.employee_id a) pk)) (attendance s) |}.

(** [_format_record] as a function of the store it reads. *)
Definition formatted (s : Store) (record : Attendance.t) : AttendanceService.RecordDict.t :=
  let employee :=
    find (fun e => String.eqb (Employee.id e) (Attendance.employee_id record))
         (employees s) in
  AttendanceService.RecordDict.Build
    (Attendance.id record) (Attendance.employee_id record)
    (option_map Employee.full_name employee)
    (option_map Employee.employee_id employee)
    (Attendance.date record) (Attendance.status record)
    (Attendance.created_at record) (Attendance.updated_at record).

(** *** Counts *)

(** The number of employees; of the rows of one employee; of those with a
    given status; of those with a status that is neither of the two values
    of [AttendanceStatus]; of the rows of one day with a given status. *)
Definition total_employees_of (s : Store) : Z := Z.of_nat (List.length (employees s)).

Definition total_days_of (s : Store) (emp : string) : Z :=
  Z.of_nat (List.length (records_of s emp)).

Definition days_with (s : Store) (emp v : string) : Z :=
  Z.of_nat (List.length (filter (fun a => String.eqb (Attendance.status a) v)
                                (records_of s emp))).

Definition other_status (a : Attendance.t) : bool :=
  negb (String.eqb (Attendance.status a) PRESENT_value)
  && negb (String.eqb (Attendance.status a) ABSENT_value).

Definition other_days (s : Store) (emp : string) : Z :=
  Z.of_nat (List.length (filter other_status (records_of s emp))).

Definition marked_with (s : Store) (d : Z) (v : string) : Z :=
  Z.of_nat (List.length (filter (fun a => Z.eqb (Attendance.date a) d
                                          && String.eqb (Attendance.status a) v)
                                (attendance s))).

(** The number of dates on which an employee has a record. *)
Definition distinct_dates (s : Store) (emp : string) : Z :=
  Z.of_nat (List.length (nodup Z.eq_dec (map Attendance.date (records_of s emp)))).

(** [round(part / whole * 100, 2)] as the specification writes it. *)
Definition percentage (part whole : Z) : Py.num :=
  Py.Float
    (Py.round2
       (Py.fmul (Py.int_truediv part whole) (Py.float_of_int 100))).

(** *** Sequences of marks *)

(** A call of [mark_attendance] as data, and the store after a list of
    such requests, whatever each of them answers. *)
Record mark_call : Type := {
  call_employee : string;
  call_date : Z;
  call_status : string;
  call_uuid4 : string;
  call_now : Z
}.

Definition after_mark (s : Store) (c : mark_call) : Store :=
  store (snd (request (AttendanceService.mark_attendance
                         (call_employee c) (call_date c) (call_status c)
                         (call_uuid4 c) (call_now c)) s)).

Definition after_marks (s : Store) (cs : list mark_call) : Store :=
  fold_left after_mark cs s.

(** *** Data of the examples *)

(** ASCII case mapping: [str.upper] and [str.lower] on ASCII text. *)
Definition ascii_upper (c : ascii) : ascii :=
  let n := nat_of_ascii c in
  if (97 <=? n)%nat && (n <=? 122)%nat then ascii_of_nat (n - 32) else c.

Definition ascii_lower (c : ascii) : ascii :=
  let n := nat_of_ascii c in
  if (65 <=? n)%nat && (n <=? 90)%nat then ascii_of_nat (n + 32) else c.

Fixpoint string_map (f : ascii -> ascii) (s : string) : string :=
  match s with
  | EmptyString => EmptyString
  | String c s' => String (f c) (string_map f s')
  end.

Definition upper_ascii : string -> string := string_map ascii_upper.
Definition lower_ascii : string -> string := string_map ascii_lower.

(** The first scenario of the specification, after E1 was created. *)
Definition one_employee_store : Store :=
  {| employees := [Employee.Build "u1" "E001" "Eve" "a@x.com" "Eng" 10 10];
     attendance := [] |}.

(** The second scenario of the specification: two employees, one of them
    marked present today. *)
Definition two_employees_store : Store :=
  {| employees := [Employee.Build "u1" "E001" "Eve" "a@x.com" "Eng" 10 10;
                   Employee.Build "u2" "E002" "Bob" "b@x.com" "Ops" 10 10];
     attendance := [Attendance.Build "a1" "u1" 738000 "present" 11 11] |}.

(** Two employees with records on two days. *)
Definition marked_store : Store :=
  {| employees := [Employee.Build "u1" "E001" "Eve" "a@x.com" "Eng" 10 10;
                   Employee.Build "u2" "E002" "Bob" "b@x.com" "Ops" 10 10];
     attendance := [Attendance.Build "a1" "u1" 738000 "present" 11 11;
                    Attendance.Build "a2" "u2" 738000 "absent" 12 12;
                    Attendance.Build "a3" "u1" 738001 "absent" 13 13] |}.

(** A store whose data is inconsistent: a record of today without any
    employee. *)
Definition orphan_store : Store :=
  {| employees := [];
     attendance := [Attendance.Build "a1" "gone" 738000 "present" 11 11] |}.

(** *** Vocabulary of the properties of the other operations *)

(** A list in descending order of a key. *)
Definition descending {A} (key : A -> Z) (l : list A) : Prop :=
  StronglySorted (fun x y => key y <= key x) l.

(** A date within two optional inclusive bounds. *)
Definition within (start_date end_date : option Z) (d : Z) : Prop :=
  (forall lo, start_date = Some lo -> lo <= d)
  /\ (forall hi, end_date = Some hi -> d <= hi).

(** The dict of an employee with the counts of its present and absent
    records. *)
Definition employee_dict (s : Store) (emp : Employee.t) : EmployeeService.EmployeeDict.t :=
  EmployeeService.EmployeeDict.Build
    (Employee.id emp) (Employee.employee_id emp) (Employee.full_name emp)
    (Employee.email emp) (Employee.department emp)
    (Employee.created_at emp) (Employee.updated_at emp)
    (days_with s (Employee.id emp) PRESENT_value)
    (days_with s (Employee.id emp) ABSENT_value).

(** The rows of one day. *)
Definition records_on (s : Store) (d : Z) : list Attendance.t :=
  filter (fun a => Z.eqb (Attendance.date a) d) (attendance s).

Definition is_select (q : stmt) : bool :=
  match q with
  | Select _ => true
  | _ => false
  end.

(** A program that only reads, as a step of a larger one: from every
    session it leaves the store and the unit of work as they were and
    sends only SELECT statements. *)
Definition reads_only {A} (c : M A) : Prop :=
  forall db,
    store (snd (c db)) = store db
    /\ pending (snd (c db)) = pending db
    /\ exists lg, log (snd (c db)) = log db ++ lg /\ forallb is_select lg = true.

(** A request that only reads. *)
Definition only_reads {A} (c : M A) : Prop :=
  forall s,
    store (snd (request c s)) = s
    /\ pending (snd (request c s)) = []
    /\ forallb is_select (log (snd (request c s))) = true.

(** * Properties *)

(** ** Lists and lookups *)

(** [NoDup] of a list of closed values. *)
Ltac nodup_closed :=
  cbv;
  repeat (apply NoDup_cons; [simpl; intuition congruence|]); apply NoDup_nil.

Lemma existsb_truthy_find {A} (p : A -> bool) (l : list A) :
  existsb p l = truthy (find p l).
Proof.
  induction l as [|x l IH]; simpl; [reflexivity|].
  destruct (p x); simpl; [reflexivity | exact IH].
Qed.

Lemma find_none_of_existsb {A} (p : A -> bool) (l : list A) :
  existsb p l = false -> find p l = None.
Proof.
  rewrite existsb_truthy_find. destruct (find p l); simpl; congruence.
Qed.

Lemma find_some_of_existsb {A} (p : A -> bool) (l : list A) :
  existsb p l = true -> exists x, find p l = Some x /\ In x l /\ p x = true.
Proof.
  rewrite existsb_truthy_find. destruct (find p l) as [x|] eqn:E; simpl; [|discriminate].
  intros _. exists x. apply find_some in E. tauto.
Qed.

Lemma existsb_false_forall {A} (p : A -> bool) (l : list A) :
  existsb p l = false -> forall x, In x l -> p x = false.
Proof.
  intros H x Hx. destruct (p x) eqn:E; [|reflexivity].
  assert (existsb p l = true) by (apply existsb_exists; eauto). congruence.
Qed.

Lemma filter_nil_of_existsb {A} (p : A -> bool) (l : list A) :
  existsb p l = false -> filter p l = [].
Proof.
  induction l as [|x l IH]; simpl; [reflexivity|].
  destruct (p x); simpl; [discriminate | exact IH].
Qed.

(** ** Missing employees (C8) *)

(** C8.  For an employee id that is not in the store, marking attendance,
    listing the records of that employee and the statistics of that
    employee each raise the 404 HTTPException; the session then holds the
    store it started with, an empty unit of work, and a log whose only
    statement is the lookup in [employees]: no statement on the ledger was
    sent, neither a query nor a write. *)
Theorem missing_employee_not_found :
  forall (s : Store) (employee_id : string),
    has_employee_pk s employee_id = false ->
    (forall attendance_date status_value uuid4 now,
        request (AttendanceService.mark_attendance
                   employee_id attendance_date status_value uuid4 now) s
        = (Raise (not_found employee_id), only_employee_lookup s))
    /\ (forall start_date end_date,
           request (AttendanceService.get_attendance_by_employee
                      employee_id start_date end_date) s
           = (Raise (not_found employee_id), only_employee_lookup s))
    /\ request (AttendanceService.get_attendance_stats employee_id) s
       = (Raise (not_found employee_id), only_employee_lookup s).
Proof.
  intros s employee_id H.
  apply find_none_of_existsb in H.
  repeat split; intros;
    unfold request, AttendanceService.mark_attendance,
      AttendanceService.get_attendance_by_employee,
      AttendanceService.get_attendance_stats, query_employee_first, bind, sent, gets;
    simpl; rewrite H; reflexivity.
Qed.

Lemma missing_employee_not_found_witness :
  request (AttendanceService.get_attendance_stats "nobody") empty_store
  = (Raise (not_found "nobody"), only_employee_lookup empty_store).
Proof.
  apply (missing_employee_not_found empty_store "nobody").
  reflexivity.
Defined.

Lemma filter_andb {A} (p q : A -> bool) (l : list A) :
  filter (fun x => p x && q x) l = filter q (filter p l).
Proof.
  induction l as [|x l IH]; simpl; [reflexivity|].
  destruct (p x); simpl; [destruct (q x)|]; rewrite IH; reflexivity.
Qed.

(** ** Statistics of one employee (C2, C3) *)

(** What a statistics request answers for an employee that exists. *)
Lemma get_attendance_stats_run (s : Store) (emp : string) (e : Employee.t) :
  find (fun e => String.eqb (Employee.id e) emp) (employees s) = Some e ->
  request (AttendanceService.get_attendance_stats emp) s
  = (Return (AttendanceService.StatsDict.Build
               emp (Employee.full_name e)
               (total_days_of s emp)
               (days_with s emp PRESENT_value)
               (days_with s emp ABSENT_value)
               (if total_days_of s emp >? 0
                then percentage (days_with s emp PRESENT_value) (total_days_of s emp)
                else Py.Float Py.fzero)),
     {| store := s; pending := []; log := stats_log |}).
Proof.
  intros Hfind.
  unfold request, AttendanceService.get_attendance_stats, query_employee_first,
    query_attendance_count, bind, sent, gets.
  simpl. rewrite Hfind. simpl.
  rewrite !filter_andb.
  fold (records_of s emp). fold (total_days_of s emp).
  fold (days_with s emp PRESENT_value). fold (days_with s emp ABSENT_value).
  destruct (total_days_of s emp >? 0) eqn:Hpos.
  - unfold AttendanceService.truediv.
    assert (Hnz : (total_days_of s emp =? 0) = false) by lia.
    rewrite Hnz. reflexivity.
  - reflexivity.
Qed.

(** C2.  For an employee that exists, the statistics request returns (it
    raises nothing, in particular no ZeroDivisionError) and leaves the
    store as it was; [total_days] and [present_days] are the numbers of
    the employee's rows and of those with status present, and
    [attendance_percentage] is [round(present_days / total_days * 100, 2)]
    when [total_days > 0] and the float [0.0] when [total_days = 0]. *)
Theorem attendance_percentage_formula :
  forall (s : Store) (emp : string),
    has_employee_pk s emp = true ->
    exists d db,
      request (AttendanceService.get_attendance_stats emp) s = (Return d, db)
      /\ store db = s
      /\ AttendanceService.StatsDict.total_days d = total_days_of s emp
      /\ AttendanceService.StatsDict.present_days d = days_with s emp "present"
      /\ (0 < AttendanceService.StatsDict.total_days d ->
          AttendanceService.StatsDict.attendance_percentage d
          = percentage (AttendanceService.StatsDict.present_days d)
                       (AttendanceService.StatsDict.total_days d))
      /\ (AttendanceService.StatsDict.total_days d = 0 ->
          AttendanceService.StatsDict.attendance_percentage d = Py.Float Py.fzero).
Proof.
  intros s emp H.
  destruct (find_some_of_existsb _ _ H) as (e & Hfind & _ & _).
  eexists. eexists. split; [apply (get_attendance_stats_run s emp e Hfind)|].
  simpl. repeat split; intros Ht.
  - assert (E : (total_days_of s emp >? 0) = true) by lia. rewrite E. reflexivity.
  - rewrite Ht. reflexivity.
Qed.

Lemma attendance_percentage_formula_witness :
  exists d db,
    request (AttendanceService.get_attendance_stats "u1")
            {| employees := [Employee.Build "u1" "E001" "Eve" "a@x.com" "Eng" 10 10];
               attendance := [Attendance.Build "a1" "u1" 738000 "present" 11 11;
                              Attendance.Build "a2" "u1" 738001 "absent" 12 12;
                              Attendance.Build "a3" "u1" 738002 "absent" 13 13] |}
    = (Return d, db)
    /\ AttendanceService.StatsDict.attendance_percentage d = percentage 1 3.
Proof.
  destruct (attendance_percentage_formula
              {| employees := [Employee.Build "u1" "E001" "Eve" "a@x.com" "Eng" 10 10];
                 attendance := [Attendance.Build "a1" "u1" 738000 "present" 11 11;
                                Attendance.Build "a2" "u1" 738001 "absent" 12 12;
                                Attendance.Build "a3" "u1" 738002 "absent" 13 13] |}
              "u1" eq_refl)
    as (d & db & Hrun & _ & Ht & Hp & Hpos & _).
  exists d, db. split; [exact Hrun|].
  rewrite Hpos; rewrite Ht, ?Hp; [reflexivity | vm_compute; reflexivity].
Defined.

Lemma length_filter_two_way {A} (p q : A -> bool) (l : list A) :
  (forall x, In x l -> xorb (p x) (q x) = true) ->
  (List.length (filter p l) + List.length (filter q l) = List.length l)%nat.
Proof.
  induction l as [|x l IH]; simpl; intros H; [reflexivity|].
  assert (Hx := H x (or_introl eq_refl)).
  assert (IH' := IH (fun y Hy => H y (or_intror Hy))).
  destruct (p x), (q x); simpl in *; try discriminate; lia.
Qed.

Lemma records_of_dates_nodup (s : Store) (emp : string) :
  unique_employee_date s -> NoDup (map Attendance.date (records_of s emp)).
Proof.
  unfold unique_employee_date, records_of.
  induction (attendance s) as [|a l IH]; simpl; intros H; [constructor|].
  inversion H as [|k ks Hnotin Hnd]; subst.
  destruct (String.eqb (Attendance.employee_id a) emp) eqn:E; simpl; [|auto].
  constructor; [|auto].
  intros Hin. apply in_map_iff in Hin. destruct Hin as (b & Hdate & Hb).
  apply filter_In in Hb. destruct Hb as [Hb Eb].
  apply Hnotin. apply in_map_iff. exists b. split; [|exact Hb].
  apply String.eqb_eq in E, Eb. unfold employee_date. congruence.
Qed.

(** C3.  For an employee that exists, in a store that keeps one row per
    (employee, date) and in which every row of that employee has status
    present or absent, the statistics satisfy
    [present_days + absent_days = total_days], and [total_days] is the
    number of distinct dates on which the employee has a record. *)
Theorem stats_days_add_up :
  forall (s : Store) (emp : string),
    has_employee_pk s emp = true ->
    unique_employee_date s ->
    (forall a, In a (records_of s emp) ->
               Attendance.status a = "present" \/ Attendance.status a = "absent") ->
    exists d db,
      request (AttendanceService.get_attendance_stats emp) s = (Return d, db)
      /\ AttendanceService.StatsDict.present_days d
         + AttendanceService.StatsDict.absent_days d
         = AttendanceService.StatsDict.total_days d
      /\ AttendanceService.StatsDict.total_days d = distinct_dates s emp.
Proof.
  intros s emp H Huniq Hstatus.
  destruct (find_some_of_existsb _ _ H) as (e & Hfind & _ & _).
  eexists. eexists. split; [apply (get_attendance_stats_run s emp e Hfind)|].
  simpl. split.
  - unfold days_with, total_days_of.
    rewrite <- Nat2Z.inj_add. f_equal.
    apply length_filter_two_way.
    intros a Ha. destruct (Hstatus a Ha) as [E|E]; rewrite E; reflexivity.
  - unfold total_days_of, distinct_dates.
    rewrite nodup_fixed_point by (apply records_of_dates_nodup; exact Huniq).
    rewrite length_map. reflexivity.
Qed.

Lemma stats_days_add_up_witness :
  exists d db,
    request (AttendanceService.get_attendance_stats "u1")
            {| employees := [Employee.Build "u1" "E001" "Eve" "a@x.com" "Eng" 10 10];
               attendance := [Attendance.Build "a1" "u1" 738000 "present" 11 11;
                              Attendance.Build "a2" "u1" 738001 "absent" 12 12] |}
    = (Return d, db)
    /\ AttendanceService.StatsDict.present_days d
       + AttendanceService.StatsDict.absent_days d
       = AttendanceService.StatsDict.total_days d
    /\ AttendanceService.StatsDict.total_days d = 2.
Proof.
  apply (stats_days_add_up
           {| employees := [Employee.Build "u1" "E001" "Eve" "a@x.com" "Eng" 10 10];
              attendance := [Attendance.Build "a1" "u1" 738000 "present" 11 11;
                             Attendance.Build "a2" "u1" 738001 "absent" 12 12] |}
           "u1").
  - reflexivity.
  - unfold unique_employee_date. simpl. nodup_closed.
  - simpl. intros a [E|[E|[]]]; subst a; simpl; auto.
Defined.

(** ** Today's summary (C6) *)

Lemma get_today_attendance_count_run (s : Store) (today : Z) :
  request (AttendanceService.get_today_attendance_count today) s
  = (Return (AttendanceService.TodayDict.Build
               (total_employees_of s)
               (marked_with s today PRESENT_value + marked_with s today ABSENT_value)
               (marked_with s today PRESENT_value)
               (marked_with s today ABSENT_value)
               (total_employees_of s
                - (marked_with s today PRESENT_value + marked_with s today ABSENT_value))
               (if total_employees_of s >? 0
                then percentage (marked_with s today PRESENT_value) (total_employees_of s)
                else Py.Int 0)),
     {| store := s; pending := []; log := today_log |}).
Proof.
  unfold request, AttendanceService.get_today_attendance_count, query_employee_count,
    query_attendance_count, bind, sent, gets.
  simpl.
  fold (total_employees_of s).
  fold (marked_with s today PRESENT_value). fold (marked_with s today ABSENT_value).
  destruct (total_employees_of s >? 0) eqn:Hpos.
  - unfold AttendanceService.truediv.
    assert (Hnz : (total_employees_of s =? 0) = false) by lia.
    rewrite Hnz. reflexivity.
  - reflexivity.
Qed.

(** C6.  Today's summary always returns (it raises nothing) and leaves
    the store as it was.  [marked_today = present_today + absent_today];
    [unmarked_today = total_employees - marked_today] as an integer
    subtraction, which is negative on a store with more records of today
    than employees; [attendance_rate] is
    [round(present_today / total_employees * 100, 2)] when
    [total_employees > 0]; when [total_employees = 0] it is the number
    zero: the integer [0] in the service's dict, which Python's [==]
    identifies with [0.0], and the float [0.0] in the answer of the
    dashboard endpoint. *)
Theorem today_summary_formula :
  (forall (s : Store) (today : Z),
      exists d db,
        request (AttendanceService.get_today_attendance_count today) s = (Return d, db)
        /\ store db = s
        /\ AttendanceService.TodayDict.total_employees d = total_employees_of s
        /\ AttendanceService.TodayDict.present_today d = marked_with s today "present"
        /\ AttendanceService.TodayDict.absent_today d = marked_with s today "absent"
        /\ AttendanceService.TodayDict.marked_today d
           = AttendanceService.TodayDict.present_today d
             + AttendanceService.TodayDict.absent_today d
        /\ AttendanceService.TodayDict.unmarked_today d
           = AttendanceService.TodayDict.total_employees d
             - AttendanceService.TodayDict.marked_today d
        /\ (0 < AttendanceService.TodayDict.total_employees d ->
            AttendanceService.TodayDict.attendance_rate d
            = percentage (AttendanceService.TodayDict.present_today d)
                         (AttendanceService.TodayDict.total_employees d))
        /\ (AttendanceService.TodayDict.total_employees d = 0 ->
            AttendanceService.TodayDict.attendance_rate d = Py.Int 0
            /\ Py.eqb (AttendanceService.TodayDict.attendance_rate d) (Py.Float Py.fzero)
               = true
            /\ exists r db',
                request (Api.get_dashboard_stats today) s = (Return r, db')
                /\ Api.DashboardStats.attendance_rate r = Py.fzero))
  /\ (exists d db,
         request (AttendanceService.get_today_attendance_count 738000) orphan_store
         = (Return d, db)
         /\ AttendanceService.TodayDict.unmarked_today d = -1).
Proof.
  split.
  - intros s today.
    eexists. eexists. split; [apply get_today_attendance_count_run|].
    simpl. do 6 (split; [reflexivity|]). split.
    + intros Ht.
      assert (E : (total_employees_of s >? 0) = true) by lia. rewrite E. reflexivity.
    + intros Hzero. rewrite Hzero. simpl.
      split; [reflexivity|]. split; [reflexivity|].
      unfold request, Api.get_dashboard_stats, bind.
      fold (request (AttendanceService.get_today_attendance_count today) s).
      rewrite get_today_attendance_count_run.
      eexists. eexists. split; [reflexivity|].
      simpl. rewrite Hzero. reflexivity.
  - eexists. eexists. split; [apply get_today_attendance_count_run|].
    reflexivity.
Qed.

Lemma today_summary_formula_witness :
  exists d db,
    request (AttendanceService.get_today_attendance_count 738000) two_employees_store
    = (Return d, db)
    /\ AttendanceService.TodayDict.total_employees d = 2
    /\ AttendanceService.TodayDict.marked_today d = 1
    /\ AttendanceService.TodayDict.present_today d = 1
    /\ AttendanceService.TodayDict.absent_today d = 0
    /\ AttendanceService.TodayDict.unmarked_today d = 1
    /\ AttendanceService.TodayDict.attendance_rate d = Py.Float (Py.float_of_int 50).
Proof.
  destruct (proj1 today_summary_formula two_employees_store 738000)
    as (d & db & Hrun & _ & Ht & Hp & Ha & Hm & Hu & Hrate & _).
  exists d, db. split; [exact Hrun|].
  rewrite Hu, Hm, Hrate; rewrite Ht, ?Hp, ?Ha; vm_compute; repeat split; reflexivity.
Defined.

(** ** The employee directory (C4, C5, C9) *)

Lemma find_app_fresh {A} (p : A -> bool) (l : list A) (x : A) :
  existsb p l = false -> p x = true -> find p (l ++ [x]) = Some x.
Proof.
  induction l as [|y l IH]; simpl; intros Hl Hx.
  - rewrite Hx. reflexivity.
  - destruct (p y); [discriminate | auto].
Qed.

Section Directory.

Variables upper lower : string -> string.

(** The [try] block when the INSERT violates a constraint. *)
Lemma create_employee_insert_conflict
    (s : Store) (lg : list stmt) (code name mail dept uuid4 : string) (now : Z) :
  has_employee_pk s uuid4 || has_employee_code s (upper code)
    || has_employee_email s (lower mail) = true ->
  EmployeeService.create_employee_insert upper lower code name mail dept uuid4 now
    (closed_session s lg)
  = (Raise employee_conflict, closed_session s (lg ++ [Insert employees_table])).
Proof.
  intros H.
  unfold EmployeeService.create_employee_insert,
    try_except_IntegrityError, db_add_employee, register, db_commit, db_rollback,
    bind, raise, closed_session.
  simpl. rewrite H. reflexivity.
Qed.

(** The [try] block when the INSERT is accepted. *)
Lemma create_employee_insert_ok
    (s : Store) (lg : list stmt) (code name mail dept uuid4 : string) (now : Z) :
  has_employee_pk s uuid4 || has_employee_code s (upper code)
    || has_employee_email s (lower mail) = false ->
  EmployeeService.create_employee_insert upper lower code name mail dept uuid4 now
    (closed_session s lg)
  = (Return (Employee.Build uuid4 (upper code) name (lower mail) dept now now),
     closed_session
       {| employees :=
            employees s
            ++ [Employee.Build uuid4 (upper code) name (lower mail) dept now now];
          attendance := attendance s |}
       ((lg ++ [Insert employees_table]) ++ [Select employees_table])).
Proof.
  intros H.
  unfold EmployeeService.create_employee_insert,
    try_except_IntegrityError, db_add_employee, register, db_commit, db_rollback,
    db_refresh_employee, sent, gets, bind, raise, ret, closed_session.
  simpl. rewrite H. simpl.
  rewrite find_app_fresh; [reflexivity | | simpl; apply String.eqb_refl].
  apply orb_false_iff in H. destruct H as [H _].
  apply orb_false_iff in H. destruct H as [H _]. exact H.
Qed.

(** [create_employee] by cases on the two pre-queries. *)
Lemma create_employee_run
    (s : Store) (code name mail dept uuid4 : string) (now : Z) :
  request (EmployeeService.create_employee upper lower code name mail dept uuid4 now) s
  = if has_employee_code s (upper code)
    then (Raise (HTTPException status.HTTP_409_CONFLICT
                   ("Employee with ID '" ++ code ++ "' already exists")%string),
          closed_session s [Select employees_table])
    else if has_employee_email s (lower mail)
    then (Raise (HTTPException status.HTTP_409_CONFLICT
                   ("Employee with email '" ++ mail ++ "' already exists")%string),
          closed_session s [Select employees_table; Select employees_table])
    else EmployeeService.create_employee_insert upper lower
           code name mail dept uuid4 now
           (closed_session s [Select employees_table; Select employees_table]).
Proof.
  unfold request, EmployeeService.create_employee,
    EmployeeService.get_employee_by_employee_id, EmployeeService.get_employee_by_email,
    query_employee_first, sent, gets, bind, raise, ret, open_session, closed_session.
  simpl.
  unfold has_employee_code, has_employee_email.
  rewrite !existsb_truthy_find.
  destruct (find _ (employees s)); simpl; [reflexivity|].
  destruct (find _ (employees s)); simpl; reflexivity.
Qed.

(** What a returning [create_employee] returned and stored. *)
Lemma create_employee_returned
    (s : Store) (code name mail dept uuid4 : string) (now : Z)
    (e : Employee.t) (db : Session) :
  request (EmployeeService.create_employee upper lower code name mail dept uuid4 now) s
  = (Return e, db) ->
  e = Employee.Build uuid4 (upper code) name (lower mail) dept now now
  /\ employees (store db) = employees s ++ [e]
  /\ attendance (store db) = attendance s.
Proof.
  rewrite create_employee_run.
  destruct (has_employee_code s (upper code)) eqn:Hc; [discriminate|].
  destruct (has_employee_email s (lower mail)) eqn:Hm; [discriminate|].
  destruct (has_employee_pk s uuid4) eqn:Hpk.
  - rewrite create_employee_insert_conflict by (rewrite Hpk; reflexivity).
    discriminate.
  - rewrite create_employee_insert_ok by (rewrite Hpk, Hc, Hm; reflexivity).
    intros E. injection E as <- <-. simpl. repeat split; reflexivity.
Qed.

(** C5.  Whenever [create_employee] returns, the employee it returns has
    the input code upper-cased, the input email lower-cased and the full
    name and department as given; that row is what the store gained, and
    nothing else changed. *)
Theorem create_employee_normalizes :
  forall (s : Store) (code name mail dept uuid4 : string) (now : Z)
         (e : Employee.t) (db : Session),
    request (EmployeeService.create_employee upper lower code name mail dept uuid4 now) s
    = (Return e, db) ->
    Employee.employee_id e = upper code
    /\ Employee.email e = lower mail
    /\ Employee.full_name e = name
    /\ Employee.department e = dept
    /\ employees (store db) = employees s ++ [e]
    /\ attendance (store db) = attendance s.
Proof.
  intros s code name mail dept uuid4 now e db Hrun.
  destruct (create_employee_returned _ _ _ _ _ _ _ _ _ Hrun) as (-> & Hemps & Hatt).
  simpl. repeat split; assumption.
Qed.

(** [create_employee] returns when neither the code, the email nor the
    drawn UUID is taken. *)
Lemma create_employee_succeeds
    (s : Store) (code name mail dept uuid4 : string) (now : Z) :
  has_employee_code s (upper code) = false ->
  has_employee_email s (lower mail) = false ->
  has_employee_pk s uuid4 = false ->
  exists db,
    request (EmployeeService.create_employee upper lower code name mail dept uuid4 now) s
    = (Return (Employee.Build uuid4 (upper code) name (lower mail) dept now now), db).
Proof.
  intros Hc Hm Hpk. rewrite create_employee_run, Hc, Hm.
  rewrite create_employee_insert_ok by (rewrite Hpk, Hc, Hm; reflexivity).
  eexists. reflexivity.
Qed.

(** Every failure of [create_employee] is the 409 and leaves the session
    with the store it started with and nothing unflushed. *)
Lemma create_employee_failure
    (s : Store) (code name mail dept uuid4 : string) (now : Z)
    (e : exn) (db : Session) :
  request (EmployeeService.create_employee upper lower code name mail dept uuid4 now) s
  = (Raise e, db) ->
  is_conflict e = true /\ store db = s /\ pending db = [].
Proof.
  rewrite create_employee_run.
  destruct (has_employee_code s (upper code)) eqn:Hc.
  { intros E. injection E as <- <-. repeat split. }
  destruct (has_employee_email s (lower mail)) eqn:Hm.
  { intros E. injection E as <- <-. repeat split. }
  destruct (has_employee_pk s uuid4) eqn:Hpk.
  - rewrite create_employee_insert_conflict by (rewrite Hpk; reflexivity).
    intros E. injection E as <- <-. repeat split.
  - rewrite create_employee_insert_ok by (rewrite Hpk, Hc, Hm; reflexivity).
    discriminate.
Qed.

(** The pre-queries find an employee with the normalized code or email. *)
Lemma create_employee_pre_query
    (s : Store) (code name mail dept uuid4 : string) (now : Z) :
  has_employee_code s (upper code) = true
  \/ has_employee_email s (lower mail) = true ->
  exists detail lg,
    request (EmployeeService.create_employee upper lower code name mail dept uuid4 now) s
    = (Raise (HTTPException status.HTTP_409_CONFLICT detail), closed_session s lg).
Proof.
  intros H. rewrite create_employee_run.
  destruct (has_employee_code s (upper code)) eqn:Hc.
  - eexists. eexists. reflexivity.
  - destruct H as [H|H]; [discriminate|]. rewrite H.
    eexists. eexists. reflexivity.
Qed.

(** C4.  (1) When the store holds an employee whose code is the input
    code upper-cased, or whose email is the input email lower-cased,
    [create_employee] raises the 409 HTTPException and the store is
    unchanged.  (2) The same outcome comes from the store: on any store
    that holds such an employee (also one that gained it after the
    pre-queries ran), the INSERT of the [try] block is refused, the block
    rolls back and raises the 409, the store unchanged.  (3) After a
    create that returned, a create whose code has the same upper-case form
    raises the 409 and stores nothing.  (4) Whenever [create_employee]
    raises, it raises the 409 and the store is unchanged with nothing left
    unflushed. *)
Theorem create_employee_conflict :
  (forall (s : Store) (code name mail dept uuid4 : string) (now : Z),
      has_employee_code s (upper code) = true
      \/ has_employee_email s (lower mail) = true ->
      exists detail lg,
        request (EmployeeService.create_employee upper lower
                   code name mail dept uuid4 now) s
        = (Raise (HTTPException status.HTTP_409_CONFLICT detail), closed_session s lg))
  /\ (forall (s : Store) (lg : list stmt) (code name mail dept uuid4 : string) (now : Z),
         has_employee_code s (upper code) = true
         \/ has_employee_email s (lower mail) = true ->
         exists detail lg',
           EmployeeService.create_employee_insert upper lower
             code name mail dept uuid4 now (closed_session s lg)
           = (Raise (HTTPException status.HTTP_409_CONFLICT detail),
              closed_session s lg'))
  /\ (forall (s : Store) (code1 name1 mail1 dept1 uuid1 : string) (now1 : Z)
             (e1 : Employee.t) (db1 : Session)
             (code2 name2 mail2 dept2 uuid2 : string) (now2 : Z),
         request (EmployeeService.create_employee upper lower
                    code1 name1 mail1 dept1 uuid1 now1) s
         = (Return e1, db1) ->
         upper code2 = upper code1 ->
         exists detail lg,
           request (EmployeeService.create_employee upper lower
                      code2 name2 mail2 dept2 uuid2 now2) (store db1)
           = (Raise (HTTPException status.HTTP_409_CONFLICT detail),
              closed_session (store db1) lg))
  /\ (forall (s : Store) (code name mail dept uuid4 : string) (now : Z)
             (e : exn) (db : Session),
         request (EmployeeService.create_employee upper lower
                    code name mail dept uuid4 now) s
         = (Raise e, db) ->
         is_conflict e = true /\ store db = s /\ pending db = []).
Proof.
  split; [apply create_employee_pre_query|]. split; [|split].
  - intros s lg code name mail dept uuid4 now H.
    eexists. eexists. apply create_employee_insert_conflict.
    destruct H as [H|H]; rewrite H; repeat rewrite ?orb_true_r, ?orb_true_l; reflexivity.
  - intros s code1 name1 mail1 dept1 uuid1 now1 e1 db1
           code2 name2 mail2 dept2 uuid2 now2 Hrun Hsame.
    apply create_employee_pre_query. left.
    destruct (create_employee_returned _ _ _ _ _ _ _ _ _ Hrun) as (He & Hemps & _).
    unfold has_employee_code. rewrite Hemps, existsb_app, He. simpl.
    rewrite Hsame, String.eqb_refl.
    repeat rewrite ?orb_true_r, ?orb_true_l. reflexivity.
  - intros s code name mail dept uuid4 now e db. apply create_employee_failure.
Qed.

End Directory.

Lemma create_employee_normalizes_witness :
  exists e db,
    request (EmployeeService.create_employee upper_ascii lower_ascii
               "e001" "Eve" "A@X.com" "Eng" "u1" 10) empty_store = (Return e, db)
    /\ Employee.employee_id e = "E001"
    /\ Employee.email e = "a@x.com"
    /\ store db = one_employee_store.
Proof.
  eexists. eexists.
  assert (R : request (EmployeeService.create_employee upper_ascii lower_ascii
                         "e001" "Eve" "A@X.com" "Eng" "u1" 10) empty_store
              = (Return (Employee.Build "u1" "E001" "Eve" "a@x.com" "Eng" 10 10),
                 closed_session one_employee_store
                   [Select employees_table; Select employees_table;
                    Insert employees_table; Select employees_table]))
    by reflexivity.
  split; [exact R|].
  destruct (create_employee_normalizes upper_ascii lower_ascii _ _ _ _ _ _ _ _ _ R)
    as (Hc & Hm & _).
  split; [exact Hc|]. split; [exact Hm|]. reflexivity.
Defined.

Lemma create_employee_conflict_witness :
  exists detail lg,
    request (EmployeeService.create_employee upper_ascii lower_ascii
               "E001" "Bob" "b@x.com" "Ops" "u2" 20) one_employee_store
    = (Raise (HTTPException status.HTTP_409_CONFLICT detail),
       closed_session one_employee_store lg).
Proof.
  apply (proj1 (proj2 (proj2 (create_employee_conflict upper_ascii lower_ascii)))
           empty_store "e001" "Eve" "A@X.com" "Eng" "u1" 10
           (Employee.Build "u1" "E001" "Eve" "a@x.com" "Eng" 10 10)
           (closed_session one_employee_store
              [Select employees_table; Select employees_table;
               Insert employees_table; Select employees_table])
           "E001" "Bob" "b@x.com" "Ops" "u2" 20);
    reflexivity.
Defined.

Lemma for_each_format_run (l : list Attendance.t) (db : Session) :
  for_each AttendanceService._format_record l db = (Return (map (formatted (store db)) l), db).
Proof.
  induction l as [|a l IH]; [reflexivity|].
  simpl. unfold bind at 1.
  unfold AttendanceService._format_record at 1, relationship_employee, gets, bind, ret.
  unfold bind in IH. simpl. rewrite IH. reflexivity.
Qed.

Lemma in_insert_desc {A} (key : A -> Z) (x y : A) (l : list A) :
  In y (insert_desc key x l) <-> y = x \/ In y l.
Proof.
  induction l as [|z l IH]; simpl; [intuition congruence|].
  destruct (key z <? key x); simpl; [intuition congruence|].
  rewrite IH. intuition congruence.
Qed.

Lemma in_order_by_desc {A} (key : A -> Z) (y : A) (l : list A) :
  In y (order_by_desc key l) <-> In y l.
Proof.
  unfold order_by_desc. induction l as [|x l IH]; simpl; [tauto|].
  rewrite in_insert_desc, IH. intuition congruence.
Qed.

Lemma get_all_attendance_run (s : Store) (start_date end_date : option Z) :
  request (AttendanceService.get_all_attendance start_date end_date) s
  = (Return (map (formatted s)
               (order_by_desc Attendance.date
                  (filter (AttendanceService.date_bounds start_date end_date)
                          (attendance s)))),
     closed_session s [Select attendance_table]).
Proof.
  unfold request, AttendanceService.get_all_attendance, query_attendance_all, bind at 1.
  unfold bind, sent, gets. simpl.
  rewrite for_each_format_run. reflexivity.
Qed.

Lemma delete_employee_run (s : Store) (pk : string) :
  request (EmployeeService.delete_employee pk) s
  = if has_employee_pk s pk
    then (Return true,
          closed_session (without_employee s pk)
            [Select employees_table; Delete employees_table])
    else (Raise (not_found pk), only_employee_lookup s).
Proof.
  unfold request, EmployeeService.delete_employee, EmployeeService.get_employee_by_id,
    query_employee_first, db_delete_employee, register, db_commit, bind, sent, gets, ret.
  simpl. unfold has_employee_pk.
  destruct (existsb _ (employees s)) eqn:H.
  - destruct (find_some_of_existsb _ _ H) as (e & Hfind & _ & He).
    rewrite Hfind. simpl. apply String.eqb_eq in He. rewrite He. reflexivity.
  - rewrite (find_none_of_existsb _ _ H). reflexivity.
Qed.

Lemma without_employee_pk (s : Store) (pk : string) :
  has_employee_pk (without_employee s pk) pk = false.
Proof.
  unfold has_employee_pk, without_employee. simpl.
  induction (employees s) as [|e l IH]; simpl; [reflexivity|].
  destruct (String.eqb (Employee.id e) pk) eqn:E; simpl; [exact IH|].
  rewrite E. exact IH.
Qed.

Lemma without_employee_records (s : Store) (pk : string) :
  records_of (without_employee s pk) pk = [].
Proof.
  unfold records_of, without_employee. simpl.
  induction (attendance s) as [|a l IH]; simpl; [reflexivity|].
  destruct (String.eqb (Attendance.employee_id a) pk) eqn:E; simpl; [exact IH|].
  rewrite E. exact IH.
Qed.

Lemma get_employee_missing (s : Store) (pk : string) :
  has_employee_pk s pk = false ->
  request (Api.get_employee pk) s = (Raise (not_found pk), only_employee_lookup s).
Proof.
  intros H. apply find_none_of_existsb in H.
  unfold request, Api.get_employee, EmployeeService.get_employee_with_stats,
    query_employee_first, bind, sent, gets.
  simpl. rewrite H. reflexivity.
Qed.

Lemma filter_filter_implied {A} (p q : A -> bool) (l : list A) :
  (forall x, p x = true -> q x = true) -> filter p (filter q l) = filter p l.
Proof.
  intros H. induction l as [|x l IH]; simpl; [reflexivity|].
  destruct (q x) eqn:Q; simpl.
  - rewrite IH. reflexivity.
  - destruct (p x) eqn:P; [|exact IH].
    rewrite (H x P) in Q. discriminate.
Qed.

(** C9.  Deleting an id that no employee has raises the 404 HTTPException
    and leaves the store as it was.  Deleting an id that an employee has
    returns [True]; the store that results is the old one without that
    employee and without the attendance rows that refer to it: every
    other employee row and every attendance row of another employee is
    still there, unchanged and in the same order, and nothing was added.
    No record of the deleted employee remains in the table or in the
    answer of [get_all_attendance], and getting the employee by that id
    raises the 404. *)
Theorem delete_employee_cascade :
  forall (s : Store) (pk : string),
    (has_employee_pk s pk = false ->
     request (EmployeeService.delete_employee pk) s
     = (Raise (not_found pk), only_employee_lookup s))
    /\ (has_employee_pk s pk = true ->
        exists db,
          request (EmployeeService.delete_employee pk) s = (Return true, db)
          /\ pending db = []
          /\ store db = without_employee s pk
          /\ (forall e, In e (employees (store db))
                        <-> In e (employees s) /\ Employee.id e <> pk)
          /\ (forall a, In a (attendance (store db))
                        <-> In a (attendance s) /\ Attendance.employee_id a <> pk)
          /\ (forall other, other <> pk -> records_of (store db) other = records_of s other)
          /\ records_of (store db) pk = []
          /\ (forall start_date end_date rs db',
                 request (AttendanceService.get_all_attendance start_date end_date)
                         (store db) = (Return rs, db') ->
                 forall r, In r rs -> AttendanceService.RecordDict.employee_id r <> pk)
          /\ request (Api.get_employee pk) (store db)
             = (Raise (not_found pk), only_employee_lookup (store db))).
Proof.
  intros s pk. split; intros H.
  - rewrite delete_employee_run, H. reflexivity.
  - eexists. split; [rewrite delete_employee_run, H; reflexivity|].
    simpl. split; [reflexivity|]. split; [reflexivity|].
    split; [|split; [|split; [|split; [|split]]]].
    + intros e. rewrite filter_In, negb_true_iff, String.eqb_neq. tauto.
    + intros a. rewrite filter_In, negb_true_iff, String.eqb_neq. tauto.
    + intros other Hother. unfold records_of. simpl.
      apply filter_filter_implied.
      intros a Ha. apply String.eqb_eq in Ha.
      apply negb_true_iff, String.eqb_neq. congruence.
    + apply without_employee_records.
    + intros start_date end_date rs db'.
      rewrite get_all_attendance_run. intros E. injection E as <- _.
      intros r Hr. apply in_map_iff in Hr. destruct Hr as (a & <- & Ha).
      apply in_order_by_desc in Ha. apply filter_In in Ha. destruct Ha as [Ha _].
      simpl in Ha. apply filter_In in Ha. destruct Ha as [_ Ha].
      apply negb_true_iff, String.eqb_neq in Ha. exact Ha.
    + apply get_employee_missing, without_employee_pk.
Qed.

Lemma delete_employee_cascade_witness :
  exists db,
    request (EmployeeService.delete_employee "u1") marked_store = (Return true, db)
    /\ store db
       = {| employees := [Employee.Build "u2" "E002" "Bob" "b@x.com" "Ops" 10 10];
            attendance := [Attendance.Build "a2" "u2" 738000 "absent" 12 12] |}
    /\ request (EmployeeService.delete_employee "u1") (store db)
       = (Raise (not_found "u1"), only_employee_lookup (store db)).
Proof.
  destruct (proj2 (delete_employee_cascade marked_store "u1") eq_refl)
    as (db & Hrun & _ & Hstore & _).
  exists db. split; [exact Hrun|]. split; [rewrite Hstore; reflexivity|].
  apply (proj1 (delete_employee_cascade (store db) "u1")).
  rewrite Hstore. reflexivity.
Defined.

(** ** The constraints are kept by every flush *)

Lemma NoDup_map_snoc {A B} (g : A -> B) (l : list A) (x : A) :
  NoDup (map g l) -> ~ In (g x) (map g l) -> NoDup (map g (l ++ [x])).
Proof.
  intros Hnd Hfresh. rewrite map_app. simpl.
  apply NoDup_app; [exact Hnd | apply NoDup_cons; [intros [] | apply NoDup_nil] | ].
  intros b Hb [E|[]]. subst b. contradiction.
Qed.

Lemma NoDup_map_filter {A B} (g : A -> B) (f : A -> bool) (l : list A) :
  NoDup (map g l) -> NoDup (map g (filter f l)).
Proof.
  induction l as [|x l IH]; simpl; intros H; [constructor|].
  inversion H as [|k ks Hnotin Hnd]; subst.
  destruct (f x); simpl; [|auto].
  constructor; [|auto].
  intros Hin. apply Hnotin.
  apply in_map_iff in Hin. destruct Hin as (y & Hy & Hin).
  apply filter_In in Hin. apply in_map_iff. exists y. tauto.
Qed.

Lemma not_in_map_of_existsb {A} (g : A -> string) (k : string) (l : list A) :
  existsb (fun y => String.eqb (g y) k) l = false -> ~ In k (map g l).
Proof.
  intros H Hin. apply in_map_iff in Hin. destruct Hin as (y & Hy & Hin).
  assert (Hf := existsb_false_forall _ _ H y Hin). simpl in Hf.
  apply String.eqb_neq in Hf. contradiction.
Qed.

Lemma same_employee_date_iff (emp : string) (d : Z) (a : Attendance.t) :
  same_employee_date emp d a = true <-> employee_date a = (emp, d).
Proof.
  unfold same_employee_date, employee_date.
  rewrite andb_true_iff, String.eqb_eq, Z.eqb_eq.
  split; [intros [-> ->]; reflexivity | intros E; injection E; auto].
Qed.

Lemma not_in_keys_of_has_employee_date (s : Store) (emp : string) (d : Z) :
  has_employee_date s emp d = false -> ~ In (emp, d) (map employee_date (attendance s)).
Proof.
  intros H Hin. apply in_map_iff in Hin. destruct Hin as (a & Ha & Hin).
  assert (Hf := existsb_false_forall _ _ H a Hin).
  apply same_employee_date_iff in Ha. congruence.
Qed.

Lemma has_employee_pk_snoc (s : Store) (e : Employee.t) (pk : string) :
  has_employee_pk s pk = true ->
  has_employee_pk {| employees := employees s ++ [e]; attendance := attendance s |} pk = true.
Proof.
  unfold has_employee_pk. simpl. intros H. rewrite existsb_app, H. reflexivity.
Qed.

Lemma map_with_status_keeps {B} (g : Attendance.t -> B) (pk v : string) (now : Z)
      (l : list Attendance.t) :
  (forall a, g (Attendance.with_status v now a) = g a) ->
  map g (map (fun a => if String.eqb (Attendance.id a) pk
                       then Attendance.with_status v now a else a) l)
  = map g l.
Proof.
  intros H. rewrite map_map. apply map_ext.
  intros a. destruct (String.eqb (Attendance.id a) pk); [apply H | reflexivity].
Qed.

(** A statement the store accepts leaves every constraint of the schema
    in place. *)
Lemma apply_change_consistent (c : change) (s s' : Store) :
  consistent s -> apply_change c s = Some s' -> consistent s'.
Proof.
  intros [Hpk Hcode Hmail Hapk Hkey Hfk] Happly.
  destruct c as [e|a|pk v now|pk]; simpl in Happly.
  - destruct (has_employee_pk s (Employee.id e)) eqn:E1; [discriminate|].
    destruct (has_employee_code s (Employee.employee_id e)) eqn:E2; [discriminate|].
    destruct (has_employee_email s (Employee.email e)) eqn:E3; [discriminate|].
    simpl in Happly. injection Happly as <-.
    constructor; simpl; try assumption.
    + apply NoDup_map_snoc; [assumption | apply not_in_map_of_existsb; exact E1].
    + apply NoDup_map_snoc; [assumption | apply not_in_map_of_existsb; exact E2].
    + apply NoDup_map_snoc; [assumption | apply not_in_map_of_existsb; exact E3].
    + intros a Ha. apply has_employee_pk_snoc. apply Hfk. exact Ha.
  - destruct (has_attendance_pk s (Attendance.id a)) eqn:E1; [discriminate|].
    destruct (has_employee_date s (Attendance.employee_id a) (Attendance.date a)) eqn:E2;
      [discriminate|].
    destruct (has_employee_pk s (Attendance.employee_id a)) eqn:E3; [|discriminate].
    simpl in Happly. injection Happly as <-.
    constructor; simpl; try assumption.
    + apply NoDup_map_snoc; [assumption | apply not_in_map_of_existsb; exact E1].
    + unfold unique_employee_date. simpl.
      apply NoDup_map_snoc; [assumption|].
      apply not_in_keys_of_has_employee_date. exact E2.
    + intros b Hb. apply in_app_or in Hb. destruct Hb as [Hb|[<-|[]]].
      * apply Hfk. exact Hb.
      * exact E3.
  - injection Happly as <-.
    constructor; simpl; try assumption.
    + rewrite map_with_status_keeps by reflexivity. assumption.
    + unfold unique_employee_date. simpl.
      rewrite map_with_status_keeps by reflexivity. assumption.
    + intros a Ha. apply in_map_iff in Ha. destruct Ha as (b & <- & Hb).
      unfold has_employee_pk. simpl.
      destruct (String.eqb (Attendance.id b) pk); simpl; apply (Hfk b Hb).
  - injection Happly as <-.
    constructor; simpl.
    + apply NoDup_map_filter. assumption.
    + apply NoDup_map_filter. assumption.
    + apply NoDup_map_filter. assumption.
    + apply NoDup_map_filter. assumption.
    + unfold unique_employee_date. simpl. apply NoDup_map_filter. assumption.
    + intros a Ha. apply filter_In in Ha. destruct Ha as [Ha Hne].
      assert (Hsome := Hfk a Ha).
      unfold has_employee_pk in *. simpl.
      apply existsb_exists in Hsome. destruct Hsome as (e & He & Heq).
      apply existsb_exists. exists e. split; [|exact Heq].
      apply filter_In. split; [exact He|].
      apply String.eqb_eq in Heq. rewrite Heq. exact Hne.
Qed.

Lemma flush_consistent (cs : list change) (s s' : Store) :
  consistent s -> flush cs s = Some s' -> consistent s'.
Proof.
  revert s. induction cs as [|c cs IH]; simpl; intros s Hs Hflush.
  - injection Hflush as <-. exact Hs.
  - destruct (apply_change c s) as [s1|] eqn:E; [|discriminate].
    apply (IH s1); [|exact Hflush].
    apply (apply_change_consistent c s s1 Hs E).
Qed.

(** Whatever a session holds unflushed, [commit] leaves a store that
    satisfies the constraints. *)
Lemma db_commit_consistent (db : Session) :
  consistent (store db) -> consistent (store (snd (db_commit db))).
Proof.
  intros H. unfold db_commit.
  destruct (flush (pending db) (store db)) as [s'|] eqn:E; simpl.
  - apply (flush_consistent _ _ _ H E).
  - exact H.
Qed.

(** ** Marking attendance (C1, C7, C10) *)

Lemma find_unique {A} (g : A -> string) (l : list A) (x : A) :
  NoDup (map g l) -> In x l ->
  find (fun y => String.eqb (g y) (g x)) l = Some x.
Proof.
  induction l as [|y l IH]; simpl; intros Hnd Hin; [contradiction|].
  inversion Hnd as [|k ks Hnotin Hnd']; subst.
  destruct Hin as [->|Hin].
  - rewrite String.eqb_refl. reflexivity.
  - destruct (String.eqb (g y) (g x)) eqn:E; [|auto].
    apply String.eqb_eq in E. exfalso. apply Hnotin. rewrite E.
    apply in_map. exact Hin.
Qed.

Lemma find_map_keeps {A} (p : A -> bool) (f : A -> A) (l : list A) :
  (forall x, p (f x) = p x) -> find p (map f l) = option_map f (find p l).
Proof.
  intros H. induction l as [|x l IH]; simpl; [reflexivity|].
  rewrite H. destruct (p x); [reflexivity | exact IH].
Qed.

(** The [try] block when the store refuses the INSERT. *)
Lemma mark_attendance_insert_conflict
    (s : Store) (lg : list stmt) (emp : string) (d : Z) (v uuid4 : string) (now : Z) :
  refuses_attendance s (Attendance.Build uuid4 emp d v now now) = true ->
  AttendanceService.mark_attendance_insert emp d v uuid4 now (closed_session s lg)
  = (Raise attendance_conflict, closed_session s (lg ++ [Insert attendance_table])).
Proof.
  unfold refuses_attendance. simpl. intros H.
  unfold AttendanceService.mark_attendance_insert, try_except_IntegrityError,
    db_add_attendance, register, db_commit, db_rollback, bind, raise, closed_session.
  simpl. rewrite H. reflexivity.
Qed.

(** The [try] block when the store accepts the INSERT. *)
Lemma mark_attendance_insert_ok
    (s : Store) (lg : list stmt) (emp : string) (d : Z) (v uuid4 : string) (now : Z) :
  refuses_attendance s (Attendance.Build uuid4 emp d v now now) = false ->
  AttendanceService.mark_attendance_insert emp d v uuid4 now (closed_session s lg)
  = (Return (formatted (with_attendance s (Attendance.Build uuid4 emp d v now now))
                       (Attendance.Build uuid4 emp d v now now)),
     closed_session (with_attendance s (Attendance.Build uuid4 emp d v now now))
       ((lg ++ [Insert attendance_table]) ++ [Select attendance_table])).
Proof.
  unfold refuses_attendance. simpl. intros H.
  unfold AttendanceService.mark_attendance_insert, try_except_IntegrityError,
    db_add_attendance, register, db_commit, db_rollback, db_refresh_attendance,
    AttendanceService._format_record, relationship_employee,
    sent, gets, bind, raise, ret, closed_session.
  simpl. rewrite H. simpl.
  rewrite find_app_fresh; [reflexivity | | simpl; apply String.eqb_refl].
  apply orb_false_iff in H. destruct H as [H _].
  apply orb_false_iff in H. destruct H as [H _]. exact H.
Qed.

(** [mark_attendance] up to the choice between UPDATE and INSERT. *)
Lemma mark_attendance_run
    (s : Store) (emp : string) (d : Z) (v uuid4 : string) (now : Z) :
  request (AttendanceService.mark_attendance emp d v uuid4 now) s
  = if has_employee_pk s emp
    then match find (same_employee_date emp d) (attendance s) with
         | Some existing =>
             (existing <- (set_status existing v now ;;
                           db_commit ;;
                           db_refresh_attendance existing) ;;
              AttendanceService._format_record existing)
               (closed_session s [Select employees_table; Select attendance_table])
         | None =>
             AttendanceService.mark_attendance_insert emp d v uuid4 now
               (closed_session s [Select employees_table; Select attendance_table])
         end
    else (Raise (not_found emp), only_employee_lookup s).
Proof.
  unfold request, AttendanceService.mark_attendance, query_employee_first,
    query_attendance_first, open_session, closed_session.
  unfold has_employee_pk. rewrite existsb_truthy_find.
  unfold bind at 1 2 3. unfold sent, gets. simpl.
  destruct (find _ (employees s)); simpl.
  - unfold bind at 1 2. simpl.
    destruct (find (same_employee_date emp d) (attendance s)); [|reflexivity].
    unfold bind. simpl. destruct (set_status _ _ _ _) as [[|] ?]; simpl; [|reflexivity].
    destruct (db_commit _) as [[|] ?]; simpl; reflexivity.
  - reflexivity.
Qed.

(** The UPDATE path: the employee exists and has a record on that date. *)
Lemma mark_attendance_update
    (s : Store) (emp : string) (d : Z) (v uuid4 : string) (now : Z)
    (existing : Attendance.t) :
  NoDup (map Attendance.id (attendance s)) ->
  has_employee_pk s emp = true ->
  find (same_employee_date emp d) (attendance s) = Some existing ->
  request (AttendanceService.mark_attendance emp d v uuid4 now) s
  = if String.eqb (Attendance.status existing) v
    then (Return (formatted s existing),
          closed_session s
            [Select employees_table; Select attendance_table; Select attendance_table])
    else (Return (formatted (with_status_set s (Attendance.id existing) v now)
                            (Attendance.with_status v now existing)),
          closed_session (with_status_set s (Attendance.id existing) v now)
            [Select employees_table; Select attendance_table;
             Update attendance_table; Select attendance_table]).
Proof.
  intros Hnd Hemp Hfind.
  rewrite mark_attendance_run, Hemp, Hfind.
  assert (Hin : In existing (attendance s)) by (apply find_some in Hfind; tauto).
  unfold set_status.
  destruct (String.eqb (Attendance.status existing) v) eqn:Hsame.
  - unfold db_commit, db_refresh_attendance, AttendanceService._format_record,
      relationship_employee, sent, gets, bind, ret, closed_session.
    simpl. rewrite (find_unique Attendance.id _ _ Hnd Hin). reflexivity.
  - unfold register, db_commit, db_refresh_attendance, AttendanceService._format_record,
      relationship_employee, sent, gets, bind, ret, closed_session.
    simpl.
    rewrite find_map_keeps.
    + rewrite (find_unique Attendance.id _ _ Hnd Hin). simpl.
      rewrite String.eqb_refl. reflexivity.
    + intros a. destruct (String.eqb (Attendance.id a) (Attendance.id existing)) eqn:E;
        simpl; exact E.
Qed.

(** The store a call of [mark_attendance] leaves, whatever it answers:
    the old one, the old one with the status of some rows set, or the old
    one with a row the store accepted. *)
Lemma after_mark_cases (s : Store) (c : mark_call) :
  after_mark s c = s
  \/ (exists pk, after_mark s c = with_status_set s pk (call_status c) (call_now c))
  \/ (refuses_attendance s
        (Attendance.Build (call_uuid4 c) (call_employee c) (call_date c)
                          (call_status c) (call_now c) (call_now c)) = false
      /\ after_mark s c
         = with_attendance s
             (Attendance.Build (call_uuid4 c) (call_employee c) (call_date c)
                               (call_status c) (call_now c) (call_now c))).
Proof.
  destruct c as [emp d v uuid4 now]. unfold after_mark. simpl.
  rewrite mark_attendance_run.
  destruct (has_employee_pk s emp); [|left; reflexivity].
  destruct (find (same_employee_date emp d) (attendance s)) as [existing|].
  - unfold set_status.
    destruct (String.eqb (Attendance.status existing) v).
    + left.
      unfold db_commit, db_refresh_attendance, AttendanceService._format_record,
        relationship_employee, sent, gets, bind, ret, raise, closed_session.
      simpl. destruct (find _ (attendance s)); reflexivity.
    + right. left. exists (Attendance.id existing).
      unfold register, db_commit, db_refresh_attendance, AttendanceService._format_record,
        relationship_employee, sent, gets, bind, ret, raise, closed_session.
      simpl. destruct (find _ (map _ (attendance s))); reflexivity.
  - destruct (refuses_attendance s (Attendance.Build uuid4 emp d v now now)) eqn:E.
    + left. rewrite mark_attendance_insert_conflict by exact E. reflexivity.
    + right. right. split; [reflexivity|].
      rewrite mark_attendance_insert_ok by exact E. reflexivity.
Qed.

Lemma unique_employee_date_with_status_set (s : Store) (pk v : string) (now : Z) :
  unique_employee_date s -> unique_employee_date (with_status_set s pk v now).
Proof.
  unfold unique_employee_date, with_status_set. simpl.
  rewrite map_with_status_keeps by reflexivity. auto.
Qed.

Lemma unique_employee_date_with_attendance (s : Store) (a : Attendance.t) :
  refuses_attendance s a = false ->
  unique_employee_date s -> unique_employee_date (with_attendance s a).
Proof.
  unfold refuses_attendance, unique_employee_date, with_attendance. simpl.
  intros H Hnd.
  apply orb_false_iff in H. destruct H as [H _].
  apply orb_false_iff in H. destruct H as [_ H].
  apply NoDup_map_snoc; [exact Hnd|].
  apply not_in_keys_of_has_employee_date. exact H.
Qed.

Lemma after_mark_unique (s : Store) (c : mark_call) :
  unique_employee_date s -> unique_employee_date (after_mark s c).
Proof.
  intros H. destruct (after_mark_cases s c) as [E|[[pk E]|[Hacc E]]]; rewrite E.
  - exact H.
  - apply unique_employee_date_with_status_set. exact H.
  - apply unique_employee_date_with_attendance; assumption.
Qed.

Lemma after_marks_unique (cs : list mark_call) (s : Store) :
  unique_employee_date s -> unique_employee_date (after_marks s cs).
Proof.
  revert s. induction cs as [|c cs IH]; simpl; intros s H; [exact H|].
  apply IH. apply after_mark_unique. exact H.
Qed.

Lemma filter_key_at_most_one (l : list Attendance.t) (emp : string) (d : Z) :
  NoDup (map employee_date l) ->
  (List.length (filter (same_employee_date emp d) l) <= 1)%nat.
Proof.
  induction l as [|a l IH]; simpl; intros H; [lia|].
  inversion H as [|k ks Hnotin Hnd]; subst.
  destruct (same_employee_date emp d a) eqn:E; [|auto].
  simpl. rewrite filter_nil_of_existsb; [simpl; lia|].
  destruct (existsb (same_employee_date emp d) l) eqn:Hex; [|reflexivity].
  exfalso. apply Hnotin.
  apply existsb_exists in Hex. destruct Hex as (b & Hb & Eb).
  apply same_employee_date_iff in E, Eb. rewrite E, <- Eb. apply in_map. exact Hb.
Qed.

Lemma find_hd_filter {A} (p : A -> bool) (l : list A) :
  find p l = hd_error (filter p l).
Proof.
  induction l as [|x l IH]; simpl; [reflexivity|].
  destruct (p x); simpl; [reflexivity | exact IH].
Qed.

Lemma filter_map_keeps {A} (p : A -> bool) (f : A -> A) (l : list A) :
  (forall x, p (f x) = p x) -> filter p (map f l) = map f (filter p l).
Proof.
  intros H. induction l as [|x l IH]; simpl; [reflexivity|].
  rewrite H. destruct (p x); simpl; rewrite IH; reflexivity.
Qed.

Lemma filter_key_unique (l : list Attendance.t) (emp : string) (d : Z) (x : Attendance.t) :
  NoDup (map employee_date l) -> In x l -> same_employee_date emp d x = true ->
  filter (same_employee_date emp d) l = [x].
Proof.
  induction l as [|a l IH]; simpl; intros Hnd Hin Hx; [contradiction|].
  inversion Hnd as [|k ks Hnotin Hnd']; subst.
  destruct Hin as [->|Hin].
  - rewrite Hx. f_equal. apply filter_nil_of_existsb.
    destruct (existsb (same_employee_date emp d) l) eqn:Hex; [|reflexivity].
    exfalso. apply Hnotin.
    apply existsb_exists in Hex. destruct Hex as (b & Hb & Eb).
    apply same_employee_date_iff in Hx, Eb. rewrite Hx, <- Eb. apply in_map. exact Hb.
  - destruct (same_employee_date emp d a) eqn:E; [|auto].
    exfalso. apply Hnotin.
    apply same_employee_date_iff in Hx, E. rewrite E, <- Hx. apply in_map. exact Hin.
Qed.

(** A call of [mark_attendance] for an employee that exists returns, on a
    store that satisfies the constraints, when the UUID drawn for a new
    row is not in use.  It leaves one row for the (employee, date) key,
    with the status of the call: the row that was there, updated, or a
    new row at the end of the table. *)
Lemma mark_attendance_succeeds
    (s : Store) (emp : string) (d : Z) (v uuid4 : string) (now : Z) :
  consistent s ->
  has_employee_pk s emp = true ->
  (find (same_employee_date emp d) (attendance s) = None ->
   has_attendance_pk s uuid4 = false) ->
  exists s' row lg,
    request (AttendanceService.mark_attendance emp d v uuid4 now) s
    = (Return (formatted s' row), closed_session s' lg)
    /\ consistent s'
    /\ employees s' = employees s
    /\ records_at s' emp d = [row]
    /\ Attendance.status row = v
    /\ (forall existing,
           find (same_employee_date emp d) (attendance s) = Some existing ->
           Attendance.id row = Attendance.id existing
           /\ List.length (attendance s') = List.length (attendance s)
           /\ map employee_date (attendance s') = map employee_date (attendance s))
    /\ (find (same_employee_date emp d) (attendance s) = None ->
        row = Attendance.Build uuid4 emp d v now now
        /\ attendance s' = attendance s ++ [row]).
Proof.
  intros Hs Hemp Hfresh.
  destruct (find (same_employee_date emp d) (attendance s)) as [existing|] eqn:Hfind.
  - assert (Hin : In existing (attendance s)) by (apply find_some in Hfind; tauto).
    assert (Hkey : same_employee_date emp d existing = true)
      by (apply find_some in Hfind; tauto).
    assert (Hone := filter_key_unique _ emp d existing
                      (attendance_key_unique s Hs) Hin Hkey).
    rewrite (mark_attendance_update s emp d v uuid4 now existing
               (attendance_pk s Hs) Hemp Hfind).
    destruct (String.eqb (Attendance.status existing) v) eqn:Hsame.
    + exists s, existing. eexists. split; [reflexivity|].
      split; [exact Hs|]. split; [reflexivity|]. split; [exact Hone|].
      split; [apply String.eqb_eq; exact Hsame|].
      split; [|discriminate].
      intros ex E. injection E as <-. repeat split.
    + exists (with_status_set s (Attendance.id existing) v now),
             (Attendance.with_status v now existing).
      eexists. split; [reflexivity|].
      split; [apply (apply_change_consistent
                       (Set_status (Attendance.id existing) v now) s _ Hs eq_refl)|].
      split; [reflexivity|].
      split.
      { unfold records_at, with_status_set. simpl.
        rewrite filter_map_keeps.
        - fold (records_at s emp d). unfold records_at. rewrite Hone. simpl.
          rewrite String.eqb_refl. reflexivity.
        - intros a. destruct (String.eqb (Attendance.id a) (Attendance.id existing));
            reflexivity. }
      split; [reflexivity|].
      split; [|discriminate].
      intros ex E. injection E as <-. simpl.
      split; [reflexivity|]. split; [apply length_map|].
      apply map_with_status_keeps. reflexivity.
  - assert (Hacc : refuses_attendance s (Attendance.Build uuid4 emp d v now now) = false).
    { unfold refuses_attendance. simpl.
      rewrite (Hfresh eq_refl), Hemp.
      unfold has_employee_date. rewrite existsb_truthy_find, Hfind. reflexivity. }
    rewrite mark_attendance_run, Hemp, Hfind.
    rewrite mark_attendance_insert_ok by exact Hacc.
    exists (with_attendance s (Attendance.Build uuid4 emp d v now now)),
           (Attendance.Build uuid4 emp d v now now).
    eexists. split; [reflexivity|].
    split.
    { apply (apply_change_consistent
               (Add_attendance (Attendance.Build uuid4 emp d v now now)) s _ Hs).
      simpl. unfold refuses_attendance in Hacc. simpl in Hacc. rewrite Hacc. reflexivity. }
    split; [reflexivity|].
    split.
    { unfold records_at, with_attendance. simpl.
      rewrite filter_app. rewrite filter_nil_of_existsb.
      - simpl. unfold same_employee_date. simpl.
        rewrite String.eqb_refl, Z.eqb_refl. reflexivity.
      - rewrite existsb_truthy_find, Hfind. reflexivity. }
    split; [reflexivity|].
    split; [discriminate|].
    intros _. split; reflexivity.
Qed.

(** C1.  (1) From a store with at most one row per (employee, date), any
    list of [mark_attendance] calls, whatever their arguments and
    answers, leaves at most one row for every (employee, date); (2) so it
    is from the empty store.  (3) On a store that satisfies the
    constraints, for an employee that exists and a fresh UUID, two marks
    of the same (employee, date) both return; afterwards the key has
    exactly one row, its status is the second status, it is the row the
    first mark answered with, and the second mark added no row: the table
    has the same length and the same keys as after the first mark. *)
Theorem one_record_per_employee_date :
  (forall (s : Store) (cs : list mark_call) (emp : string) (d : Z),
      unique_employee_date s ->
      (List.length (records_at (after_marks s cs) emp d) <= 1)%nat)
  /\ (forall (cs : list mark_call) (emp : string) (d : Z),
         (List.length (records_at (after_marks empty_store cs) emp d) <= 1)%nat)
  /\ (forall (s : Store) (emp : string) (d : Z) (v1 v2 uuid1 uuid2 : string) (now1 now2 : Z),
         consistent s ->
         has_employee_pk s emp = true ->
         has_attendance_pk s uuid1 = false ->
         exists r1 db1 r2 db2 row,
           request (AttendanceService.mark_attendance emp d v1 uuid1 now1) s
           = (Return r1, db1)
           /\ request (AttendanceService.mark_attendance emp d v2 uuid2 now2) (store db1)
              = (Return r2, db2)
           /\ records_at (store db2) emp d = [row]
           /\ Attendance.status row = v2
           /\ Attendance.id row = AttendanceService.RecordDict.id r1
           /\ AttendanceService.RecordDict.id r2 = AttendanceService.RecordDict.id r1
           /\ AttendanceService.RecordDict.status r2 = v2
           /\ List.length (attendance (store db2)) = List.length (attendance (store db1))
           /\ map employee_date (attendance (store db2))
              = map employee_date (attendance (store db1))).
Proof.
  assert (bound : forall s cs emp d,
             unique_employee_date s ->
             (List.length (records_at (after_marks s cs) emp d) <= 1)%nat).
  { intros s cs emp d H. apply filter_key_at_most_one.
    apply (after_marks_unique cs s H). }
  split; [exact bound|]. split.
  - intros cs emp d. apply bound. apply NoDup_nil.
  - intros s emp d v1 v2 uuid1 uuid2 now1 now2 Hs Hemp Hfresh.
    destruct (mark_attendance_succeeds s emp d v1 uuid1 now1 Hs Hemp (fun _ => Hfresh))
      as (s1 & row1 & lg1 & Hrun1 & Hs1 & Hemps1 & Hat1 & _ & _ & _).
    assert (Hemp1 : has_employee_pk s1 emp = true)
      by (unfold has_employee_pk; rewrite Hemps1; exact Hemp).
    assert (Hfind1 : find (same_employee_date emp d) (attendance s1) = Some row1).
    { rewrite find_hd_filter. fold (records_at s1 emp d). rewrite Hat1. reflexivity. }
    destruct (mark_attendance_succeeds s1 emp d v2 uuid2 now2 Hs1 Hemp1)
      as (s2 & row2 & lg2 & Hrun2 & _ & _ & Hat2 & Hv2 & Hupd & _).
    { rewrite Hfind1. discriminate. }
    destruct (Hupd row1 Hfind1) as (Hid & Hlen & Hkeys).
    exists (formatted s1 row1), (closed_session s1 lg1),
           (formatted s2 row2), (closed_session s2 lg2), row2.
    simpl. repeat split; assumption.
Qed.

Lemma one_record_per_employee_date_witness :
  exists r1 db1 r2 db2 row,
    request (AttendanceService.mark_attendance "u1" 738000 "present" "a1" 11)
            one_employee_store = (Return r1, db1)
    /\ request (AttendanceService.mark_attendance "u1" 738000 "absent" "a2" 12)
               (store db1) = (Return r2, db2)
    /\ records_at (store db2) "u1" 738000 = [row]
    /\ Attendance.status row = "absent".
Proof.
  destruct (proj2 (proj2 one_record_per_employee_date)
              one_employee_store "u1" 738000 "present" "absent" "a1" "a2" 11 12)
    as (r1 & db1 & r2 & db2 & row & H1 & H2 & H3 & H4 & _).
  - constructor; try nodup_closed. simpl. intros a [].
  - reflexivity.
  - reflexivity.
  - exists r1, db1, r2, db2, row. repeat split; assumption.
Defined.

(** C7.  (1) When the store already holds a record for the (employee,
    date) key at the time the [try] block of [mark_attendance] runs, the
    INSERT is refused, the block rolls back and raises the 409
    HTTPException; the session is left with the store as the block found
    it and with nothing unflushed.  (2) Such a run exists: a request whose
    existence queries on [s0] found the employee and no record continues
    with the [try] block; if another request's INSERT for the same key
    was accepted in between, giving [s], the block on [s] ends as in (1). *)
Theorem mark_attendance_race_conflict :
  (forall (s : Store) (lg : list stmt) (emp : string) (d : Z) (v uuid4 : string) (now : Z),
      has_employee_date s emp d = true ->
      AttendanceService.mark_attendance_insert emp d v uuid4 now (closed_session s lg)
      = (Raise (HTTPException status.HTTP_409_CONFLICT
                  "Attendance for this date already exists"),
         closed_session s (lg ++ [Insert attendance_table])))
  /\ (forall (s0 s : Store) (other : Attendance.t)
             (emp : string) (d : Z) (v uuid4 : string) (now : Z),
         has_employee_pk s0 emp = true ->
         has_employee_date s0 emp d = false ->
         apply_change (Add_attendance other) s0 = Some s ->
         employee_date other = (emp, d) ->
         request (AttendanceService.mark_attendance emp d v uuid4 now) s0
         = AttendanceService.mark_attendance_insert emp d v uuid4 now
             (closed_session s0 mark_reads)
         /\ AttendanceService.mark_attendance_insert emp d v uuid4 now
              (closed_session s mark_reads)
            = (Raise (HTTPException status.HTTP_409_CONFLICT
                        "Attendance for this date already exists"),
               closed_session s (mark_reads ++ [Insert attendance_table]))).
Proof.
  assert (refused : forall s lg emp d v uuid4 now,
             has_employee_date s emp d = true ->
             AttendanceService.mark_attendance_insert emp d v uuid4 now
               (closed_session s lg)
             = (Raise attendance_conflict,
                closed_session s (lg ++ [Insert attendance_table]))).
  { intros s lg emp d v uuid4 now H.
    apply mark_attendance_insert_conflict.
    unfold refuses_attendance. simpl. rewrite H.
    repeat rewrite ?orb_true_r, ?orb_true_l. reflexivity. }
  split; [exact refused|].
  intros s0 s other emp d v uuid4 now Hemp Hnone Hother Hkey. split.
  - rewrite mark_attendance_run, Hemp.
    unfold has_employee_date in Hnone.
    rewrite (find_none_of_existsb _ _ Hnone). reflexivity.
  - apply refused.
    simpl in Hother.
    destruct (has_attendance_pk s0 (Attendance.id other)
              || has_employee_date s0 (Attendance.employee_id other) (Attendance.date other)
              || negb (has_employee_pk s0 (Attendance.employee_id other)));
      [discriminate|].
    injection Hother as <-.
    unfold has_employee_date. simpl. rewrite existsb_app. simpl.
    apply same_employee_date_iff in Hkey. rewrite Hkey.
    repeat rewrite ?orb_true_r, ?orb_true_l. reflexivity.
Qed.

Lemma mark_attendance_race_conflict_witness :
  AttendanceService.mark_attendance_insert "u1" 738000 "absent" "a9" 12
    (closed_session
       {| employees := employees one_employee_store;
          attendance := [Attendance.Build "a1" "u1" 738000 "present" 11 11] |}
       mark_reads)
  = (Raise (HTTPException status.HTTP_409_CONFLICT
              "Attendance for this date already exists"),
     closed_session
       {| employees := employees one_employee_store;
          attendance := [Attendance.Build "a1" "u1" 738000 "present" 11 11] |}
       (mark_reads ++ [Insert attendance_table])).
Proof.
  apply (proj2 mark_attendance_race_conflict
           one_employee_store
           {| employees := employees one_employee_store;
              attendance := [Attendance.Build "a1" "u1" 738000 "present" 11 11] |}
           (Attendance.Build "a1" "u1" 738000 "present" 11 11)
           "u1" 738000 "absent" "a9" 12);
    reflexivity.
Defined.

Lemma length_filter_three_way {A} (p q : A -> bool) (l : list A) :
  (forall x, p x = true -> q x = false) ->
  List.length l
  = (List.length (filter p l) + List.length (filter q l)
     + List.length (filter (fun x => negb (p x) && negb (q x)) l))%nat.
Proof.
  intros H. induction l as [|x l IH]; simpl; [reflexivity|].
  destruct (p x) eqn:P; simpl.
  - rewrite (H x P). simpl. lia.
  - destruct (q x); simpl; lia.
Qed.

Lemma stats_three_way (s : Store) (emp : string) :
  total_days_of s emp
  = days_with s emp PRESENT_value + days_with s emp ABSENT_value + other_days s emp.
Proof.
  unfold total_days_of, days_with, other_days, other_status.
  rewrite <- !Nat2Z.inj_add. f_equal.
  apply length_filter_three_way.
  intros a Ha. apply String.eqb_eq in Ha. rewrite Ha. reflexivity.
Qed.

Lemma records_of_with_attendance (s : Store) (a : Attendance.t) :
  records_of (with_attendance s a) (Attendance.employee_id a) =
  records_of s (Attendance.employee_id a) ++ [a].
Proof.
  unfold records_of, with_attendance. simpl.
  rewrite filter_app. simpl. rewrite String.eqb_refl. reflexivity.
Qed.

(** C10.  The endpoint hands the service one of the two strings of its
    enum, but the service takes any string.  On a store that satisfies
    the constraints, for an employee that exists and a fresh UUID,
    [mark_attendance] with any status string returns, and the answer and
    the one row of that (employee, date) carry the string unchanged.  In
    the statistics that follow, [total_days] is the sum of
    [present_days], [absent_days] and the number of rows with another
    status; when the string is neither present nor absent, the marked row
    is one of those, and a mark that made a new row raised [total_days]
    by one and left [present_days] and [absent_days] as they were. *)
Theorem mark_attendance_any_status :
  (forall x : Api.AttendanceStatusEnum.t,
      Api.AttendanceStatusEnum.value x = "present"
      \/ Api.AttendanceStatusEnum.value x = "absent")
  /\ (forall (data : Api.AttendanceCreate.t) (uuid4 : string) (now : Z),
         Api.mark_attendance data uuid4 now
         = AttendanceService.mark_attendance
             (Api.AttendanceCreate.employee_id data) (Api.AttendanceCreate.date data)
             (Api.AttendanceStatusEnum.value (Api.AttendanceCreate.status data))
             uuid4 now)
  /\ (forall (s : Store) (emp : string) (d : Z) (v uuid4 : string) (now : Z),
         consistent s ->
         has_employee_pk s emp = true ->
         has_attendance_pk s uuid4 = false ->
         exists r db row st db',
           request (AttendanceService.mark_attendance emp d v uuid4 now) s = (Return r, db)
           /\ AttendanceService.RecordDict.status r = v
           /\ records_at (store db) emp d = [row]
           /\ Attendance.status row = v
           /\ request (AttendanceService.get_attendance_stats emp) (store db)
              = (Return st, db')
           /\ AttendanceService.StatsDict.total_days st
              = AttendanceService.StatsDict.present_days st
                + AttendanceService.StatsDict.absent_days st
                + other_days (store db) emp
           /\ (v <> "present" -> v <> "absent" ->
               In row (filter other_status (records_of (store db) emp))
               /\ (has_employee_date s emp d = false ->
                   AttendanceService.StatsDict.total_days st = total_days_of s emp + 1
                   /\ AttendanceService.StatsDict.present_days st
                      = days_with s emp "present"
                   /\ AttendanceService.StatsDict.absent_days st
                      = days_with s emp "absent"))).
Proof.
  split; [intros []; auto|]. split; [reflexivity|].
  intros s emp d v uuid4 now Hs Hemp Hfresh.
  destruct (mark_attendance_succeeds s emp d v uuid4 now Hs Hemp (fun _ => Hfresh))
    as (s1 & row & lg & Hrun & _ & Hemps & Hat & Hv & _ & Hins).
  assert (Hemp1 : has_employee_pk s1 emp = true)
    by (unfold has_employee_pk; rewrite Hemps; exact Hemp).
  destruct (find_some_of_existsb _ _ Hemp1) as (e & Hfind & _ & _).
  exists (formatted s1 row), (closed_session s1 lg), row.
  eexists. eexists.
  split; [exact Hrun|]. simpl.
  split; [exact Hv|]. split; [exact Hat|]. split; [exact Hv|].
  split; [apply (get_attendance_stats_run s1 emp e Hfind)|].
  simpl. split; [apply stats_three_way|].
  intros Hnp Hna.
  assert (Hrow : In row (records_at s1 emp d)) by (rewrite Hat; left; reflexivity).
  apply filter_In in Hrow. destruct Hrow as [Hin Hkey].
  apply andb_true_iff in Hkey. destruct Hkey as [Hkey _].
  assert (Hother : other_status row = true).
  { unfold other_status. rewrite Hv.
    apply andb_true_iff. split; apply negb_true_iff, String.eqb_neq; assumption. }
  split.
  - apply filter_In. split; [|exact Hother].
    apply filter_In. split; assumption.
  - intros Hnone.
    destruct Hins as [Hrow Hatt].
    { apply find_none_of_existsb. exact Hnone. }
    assert (Hs1 : s1 = with_attendance s row).
    { destruct s1 as [es1 as1]. simpl in *. unfold with_attendance.
      rewrite Hemps, Hatt. reflexivity. }
    assert (Hid : Attendance.employee_id row = emp) by (rewrite Hrow; reflexivity).
    unfold total_days_of, days_with.
    rewrite Hs1, <- Hid, records_of_with_attendance, Hid.
    rewrite filter_app, !length_app. simpl.
    assert (Hp : String.eqb (Attendance.status row) "present" = false)
      by (rewrite Hv; apply String.eqb_neq; exact Hnp).
    assert (Ha : String.eqb (Attendance.status row) "absent" = false)
      by (rewrite Hv; apply String.eqb_neq; exact Hna).
    rewrite filter_app. simpl. unfold PRESENT_value, ABSENT_value. simpl.
    rewrite Hp, Ha, !length_app. simpl. lia.
Qed.

Lemma mark_attendance_any_status_witness :
  exists r db row st db',
    request (AttendanceService.mark_attendance "u1" 738000 "on leave" "a1" 11)
            one_employee_store = (Return r, db)
    /\ AttendanceService.RecordDict.status r = "on leave"
    /\ records_at (store db) "u1" 738000 = [row]
    /\ request (AttendanceService.get_attendance_stats "u1") (store db) = (Return st, db')
    /\ AttendanceService.StatsDict.total_days st = 1
    /\ AttendanceService.StatsDict.present_days st = 0
    /\ AttendanceService.StatsDict.absent_days st = 0.
Proof.
  destruct (proj2 (proj2 mark_attendance_any_status)
              one_employee_store "u1" 738000 "on leave" "a1" 11)
    as (r & db & row & st & db' & Hrun & Hr & Hat & _ & Hstats & _ & Hother).
  - constructor; try nodup_closed. simpl. intros a [].
  - reflexivity.
  - reflexivity.
  - destruct Hother as (_ & Hcount); [discriminate | discriminate |].
    destruct (Hcount eq_refl) as (Ht & Hp & Ha).
    exists r, db, row, st, db'. repeat split; assumption.
Defined.

(** ** The first scenario of the specification, run *)

Example scenario_mark_twice :
  let s1 :=
    store (snd (request (EmployeeService.create_employee upper_ascii lower_ascii
                           "e001" "Eve" "A@X.com" "Eng" "u1" 10) empty_store)) in
  let s2 :=
    after_mark s1 {| call_employee := "u1"; call_date := 738886;
                     call_status := "present"; call_uuid4 := "a1"; call_now := 11 |} in
  let s3 :=
    after_mark s2 {| call_employee := "u1"; call_date := 738886;
                     call_status := "absent"; call_uuid4 := "a2"; call_now := 12 |} in
  s1 = one_employee_store
  /\ attendance s2 = [Attendance.Build "a1" "u1" 738886 "present" 11 11]
  /\ fst (request (AttendanceService.get_attendance_stats "u1") s2)
     = Return (AttendanceService.StatsDict.Build
                 "u1" "Eve" 1 1 0 (Py.Float (Py.float_of_int 100)))
  /\ attendance s3 = [Attendance.Build "a1" "u1" 738886 "absent" 11 12]
  /\ fst (request (AttendanceService.get_attendance_stats "u1") s3)
     = Return (AttendanceService.StatsDict.Build "u1" "Eve" 1 0 1 (Py.Float Py.fzero)).
Proof. vm_compute. repeat split. Qed.

Example round2_examples :
  Py.round2 (Py.fmul (Py.int_truediv 1 3) (Py.float_of_int 100)) = Py.int_truediv 3333 100
  /\ Py.round2 (Py.fmul (Py.int_truediv 2 3) (Py.float_of_int 100)) = Py.int_truediv 6667 100
  /\ Py.round2 (Py.int_truediv 1 8) = Py.int_truediv 12 100
  /\ Py.round2 (Py.int_truediv 2675 1000) = Py.int_truediv 267 100.
Proof. vm_compute. repeat split. Qed.

(** * Properties of the other operations *)

(** ** Ordering *)

Lemma insert_desc_perm {A} (key : A -> Z) (x : A) (l : list A) :
  Permutation (insert_desc key x l) (x :: l).
Proof.
  induction l as [|y l IH]; simpl; [reflexivity|].
  destruct (key y <? key x); [reflexivity|].
  rewrite IH. apply perm_swap.
Qed.

Lemma order_by_desc_perm {A} (key : A -> Z) (l : list A) :
  Permutation (order_by_desc key l) l.
Proof.
  unfold order_by_desc. induction l as [|x l IH]; simpl; [reflexivity|].
  rewrite insert_desc_perm. constructor. exact IH.
Qed.

Lemma insert_desc_descending {A} (key : A -> Z) (x : A) (l : list A) :
  descending key l -> descending key (insert_desc key x l).
Proof.
  unfold descending. induction l as [|y l IH]; simpl; intros H.
  - constructor; constructor.
  - inversion H as [|y' l' Hl Hy]; subst.
    destruct (key y <? key x) eqn:E.
    + constructor; [exact H|].
      constructor; [lia|].
      rewrite Forall_forall in *. intros z Hz. specialize (Hy z Hz). lia.
    + constructor; [apply IH; exact Hl|].
      rewrite Forall_forall in *. intros z Hz.
      apply in_insert_desc in Hz. destruct Hz as [->|Hz]; [lia | apply Hy; exact Hz].
Qed.

Lemma order_by_desc_descending {A} (key : A -> Z) (l : list A) :
  descending key (order_by_desc key l).
Proof.
  unfold order_by_desc. induction l as [|x l IH]; simpl.
  - constructor.
  - apply insert_desc_descending. exact IH.
Qed.

Lemma descending_map {A B} (f : A -> B) (key : B -> Z) (l : list A) :
  descending (fun x => key (f x)) l -> descending key (map f l).
Proof.
  unfold descending. induction 1 as [|x l Hl IH Hx]; simpl; constructor.
  - exact IH.
  - rewrite Forall_forall in *. intros y Hy.
    apply in_map_iff in Hy. destruct Hy as (z & <- & Hz). apply Hx. exact Hz.
Qed.

Lemma date_bounds_within (start_date end_date : option Z) (a : Attendance.t) :
  AttendanceService.date_bounds start_date end_date a = true
  <-> within start_date end_date (Attendance.date a).
Proof.
  unfold AttendanceService.date_bounds, within.
  rewrite andb_true_iff.
  destruct start_date as [lo|], end_date as [hi|]; rewrite ?Z.leb_le; split.
  all: try (intros [H1 H2]; split; intros x E; try discriminate;
            injection E as <-; assumption).
  all: intros [H1 H2]; split; auto.
Qed.

(** ** Listing the ledger *)

Lemma get_attendance_by_employee_run
    (s : Store) (emp : string) (start_date end_date : option Z) :
  has_employee_pk s emp = true ->
  request (AttendanceService.get_attendance_by_employee emp start_date end_date) s
  = (Return (map (formatted s)
               (order_by_desc Attendance.date
                  (filter (fun a => String.eqb (Attendance.employee_id a) emp
                                    && AttendanceService.date_bounds start_date end_date a)
                          (attendance s)))),
     closed_session s [Select employees_table; Select attendance_table]).
Proof.
  intros H. destruct (find_some_of_existsb _ _ H) as (e & Hfind & _ & _).
  unfold request, AttendanceService.get_attendance_by_employee, query_employee_first,
    query_attendance_all.
  unfold bind at 1 2 3. unfold sent, gets. simpl. rewrite Hfind. simpl.
  unfold bind at 1 2. simpl.
  rewrite for_each_format_run. reflexivity.
Qed.

(** X1.  [get_all_attendance] returns, formatted and in descending order
    of date, exactly the stored records whose date lies within the two
    optional inclusive bounds, each as often as it is stored; it leaves
    the store as it was. *)
Theorem get_all_attendance_window :
  forall (s : Store) (start_date end_date : option Z),
    exists rows,
      request (AttendanceService.get_all_attendance start_date end_date) s
      = (Return (map (formatted s) rows), closed_session s [Select attendance_table])
      /\ Permutation rows
           (filter (AttendanceService.date_bounds start_date end_date) (attendance s))
      /\ (forall a, In a rows
                    <-> In a (attendance s)
                        /\ within start_date end_date (Attendance.date a))
      /\ descending AttendanceService.RecordDict.date (map (formatted s) rows).
Proof.
  intros s start_date end_date.
  eexists. split; [apply get_all_attendance_run|].
  split; [apply order_by_desc_perm|]. split.
  - intros a. rewrite in_order_by_desc, filter_In, date_bounds_within. tauto.
  - apply descending_map. apply (order_by_desc_descending Attendance.date).
Qed.

(** X2.  With a start date later than the end date [get_all_attendance]
    returns the empty list; without bounds it returns as many records as
    the table has rows. *)
Theorem get_all_attendance_edges :
  forall (s : Store),
    (forall lo hi, hi < lo ->
                   fst (request (AttendanceService.get_all_attendance (Some lo) (Some hi)) s)
                   = Return [])
    /\ (exists rs,
           fst (request (AttendanceService.get_all_attendance None None) s) = Return rs
           /\ List.length rs = List.length (attendance s)).
Proof.
  intros s. split.
  - intros lo hi Hlt. rewrite get_all_attendance_run. simpl.
    rewrite filter_nil_of_existsb; [reflexivity|].
    destruct (existsb _ (attendance s)) eqn:E; [|reflexivity].
    apply existsb_exists in E. destruct E as (a & _ & Ha).
    apply date_bounds_within in Ha. destruct Ha as [H1 H2].
    specialize (H1 lo eq_refl). specialize (H2 hi eq_refl). lia.
  - eexists. rewrite get_all_attendance_run. simpl. split; [reflexivity|].
    rewrite length_map.
    rewrite (Permutation_length (order_by_desc_perm Attendance.date _)).
    f_equal. apply forallb_filter_id. apply forallb_forall. reflexivity.
Qed.

Lemma get_all_attendance_edges_witness :
  fst (request (AttendanceService.get_all_attendance (Some 738001) (Some 738000))
               marked_store) = Return [].
Proof.
  apply (proj1 (get_all_attendance_edges marked_store) 738001 738000). lia.
Defined.

Lemma filter_insert_desc {A} (key : A -> Z) (p : A -> bool) (x : A) (l : list A) :
  descending key l ->
  filter p (insert_desc key x l)
  = if p x then insert_desc key x (filter p l) else filter p l.
Proof.
  unfold descending. induction 1 as [|y l Hl IH Hy]; simpl.
  - destruct (p x); reflexivity.
  - destruct (key y <? key x) eqn:E; simpl.
    + destruct (p x) eqn:Px, (p y) eqn:Py; simpl; rewrite ?E; try reflexivity.
      destruct (filter p l) as [|z l'] eqn:F; [reflexivity|]. simpl.
      assert (Hz : In z l).
      { assert (Hin : In z (filter p l)) by (rewrite F; left; reflexivity).
        apply filter_In in Hin. tauto. }
      rewrite Forall_forall in Hy. specialize (Hy z Hz).
      assert (Ez : (key z <? key x) = true) by lia. rewrite Ez. reflexivity.
    + rewrite IH. destruct (p x) eqn:Px, (p y) eqn:Py; simpl; rewrite ?E; reflexivity.
Qed.

Lemma filter_order_by_desc {A} (key : A -> Z) (p : A -> bool) (l : list A) :
  filter p (order_by_desc key l) = order_by_desc key (filter p l).
Proof.
  induction l as [|x l IH]; [reflexivity|].
  change (order_by_desc key (x :: l)) with (insert_desc key x (order_by_desc key l)).
  rewrite filter_insert_desc by apply order_by_desc_descending.
  simpl. destruct (p x); rewrite IH; reflexivity.
Qed.

(** X3.  For an employee that exists, [get_attendance_by_employee]
    returns, formatted and in descending order of date, exactly the
    stored records of that employee whose date lies within the bounds; it
    leaves the store as it was. *)
Theorem get_attendance_by_employee_window :
  forall (s : Store) (emp : string) (start_date end_date : option Z),
    has_employee_pk s emp = true ->
    exists rows,
      request (AttendanceService.get_attendance_by_employee emp start_date end_date) s
      = (Return (map (formatted s) rows),
         closed_session s [Select employees_table; Select attendance_table])
      /\ Permutation rows
           (filter (AttendanceService.date_bounds start_date end_date) (records_of s emp))
      /\ (forall a, In a rows
                    <-> In a (attendance s)
                        /\ Attendance.employee_id a = emp
                        /\ within start_date end_date (Attendance.date a))
      /\ descending AttendanceService.RecordDict.date (map (formatted s) rows).
Proof.
  intros s emp start_date end_date H.
  eexists. split; [apply (get_attendance_by_employee_run s emp _ _ H)|].
  split; [|split].
  - rewrite order_by_desc_perm, filter_andb. reflexivity.
  - intros a.
    rewrite in_order_by_desc, filter_In, andb_true_iff, String.eqb_eq, date_bounds_within.
    tauto.
  - apply descending_map. apply (order_by_desc_descending Attendance.date).
Qed.

Lemma get_attendance_by_employee_window_witness :
  exists rows,
    request (AttendanceService.get_attendance_by_employee "u1" (Some 738000) None)
            marked_store
    = (Return (map (formatted marked_store) rows),
       closed_session marked_store [Select employees_table; Select attendance_table])
    /\ List.length rows = 2%nat.
Proof.
  destruct (get_attendance_by_employee_window marked_store "u1" (Some 738000) None eq_refl)
    as (rows & Hrun & Hperm & _).
  exists rows. split; [exact Hrun|].
  rewrite (Permutation_length Hperm). reflexivity.
Defined.

Lemma filter_comm {A} (p q : A -> bool) (l : list A) :
  filter p (filter q l) = filter q (filter p l).
Proof.
  induction l as [|x l IH]; simpl; [reflexivity|].
  destruct (p x) eqn:P, (q x) eqn:Q; simpl; rewrite ?P, ?Q, IH; reflexivity.
Qed.

(** X4.  For an employee that exists, on a store with at most one row
    per (employee, date), the list of [get_attendance_by_employee] is the
    list of [get_all_attendance] for the same bounds restricted to the
    records of that employee, in the same order. *)
Theorem get_attendance_by_employee_restricts :
  forall (s : Store) (emp : string) (start_date end_date : option Z),
    unique_employee_date s ->
    has_employee_pk s emp = true ->
    exists every,
      fst (request (AttendanceService.get_all_attendance start_date end_date) s)
      = Return every
      /\ fst (request (AttendanceService.get_attendance_by_employee
                         emp start_date end_date) s)
         = Return (filter (fun r => String.eqb (AttendanceService.RecordDict.employee_id r)
                                               emp)
                          every).
Proof.
  intros s emp start_date end_date _ H.
  eexists. rewrite get_all_attendance_run. split; [reflexivity|].
  rewrite (get_attendance_by_employee_run s emp _ _ H). simpl. f_equal.
  rewrite filter_map_swap. simpl. f_equal.
  rewrite filter_order_by_desc. f_equal.
  rewrite filter_andb. apply filter_comm.
Qed.

Lemma get_attendance_by_employee_restricts_witness :
  exists every,
    fst (request (AttendanceService.get_all_attendance None None) marked_store)
    = Return every
    /\ fst (request (AttendanceService.get_attendance_by_employee "u2" None None)
                    marked_store)
       = Return (filter (fun r => String.eqb (AttendanceService.RecordDict.employee_id r)
                                             "u2")
                        every).
Proof.
  apply (get_attendance_by_employee_restricts marked_store "u2" None None).
  - unfold unique_employee_date. nodup_closed.
  - reflexivity.
Defined.

Lemma formatted_join (s : Store) (a : Attendance.t) :
  (has_employee_pk s (Attendance.employee_id a) = false ->
   AttendanceService.RecordDict.employee_name (formatted s a) = None
   /\ AttendanceService.RecordDict.employee_code (formatted s a) = None)
  /\ (has_employee_pk s (Attendance.employee_id a) = true ->
      exists e,
        In e (employees s)
        /\ Employee.id e = Attendance.employee_id a
        /\ AttendanceService.RecordDict.employee_name (formatted s a)
           = Some (Employee.full_name e)
        /\ AttendanceService.RecordDict.employee_code (formatted s a)
           = Some (Employee.employee_id e)).
Proof.
  unfold formatted. simpl. split; intros H.
  - rewrite (find_none_of_existsb _ _ H). split; reflexivity.
  - destruct (find_some_of_existsb _ _ H) as (e & Hfind & Hin & He).
    rewrite Hfind. exists e. apply String.eqb_eq in He. repeat split; assumption.
Qed.

(** X5.  Every record [get_all_attendance] returns carries the full name
    and the code of an employee row whose id is the record's
    [employee_id] when there is such a row, and [None] for both when
    there is none; on a store that satisfies the constraints there always
    is such a row. *)
Theorem format_record_joins_employee :
  forall (s : Store) (start_date end_date : option Z)
         (rs : list AttendanceService.RecordDict.t) (r : AttendanceService.RecordDict.t),
    fst (request (AttendanceService.get_all_attendance start_date end_date) s) = Return rs ->
    In r rs ->
    let joined :=
      exists e,
        In e (employees s)
        /\ Employee.id e = AttendanceService.RecordDict.employee_id r
        /\ AttendanceService.RecordDict.employee_name r = Some (Employee.full_name e)
        /\ AttendanceService.RecordDict.employee_code r = Some (Employee.employee_id e) in
    (has_employee_pk s (AttendanceService.RecordDict.employee_id r) = false ->
     AttendanceService.RecordDict.employee_name r = None
     /\ AttendanceService.RecordDict.employee_code r = None)
    /\ (has_employee_pk s (AttendanceService.RecordDict.employee_id r) = true -> joined)
    /\ (consistent s -> joined).
Proof.
  intros s start_date end_date rs r Hrun Hr. simpl.
  rewrite get_all_attendance_run in Hrun. simpl in Hrun. injection Hrun as <-.
  apply in_map_iff in Hr. destruct Hr as (a & <- & Ha).
  apply in_order_by_desc in Ha. apply filter_In in Ha. destruct Ha as [Ha _].
  destruct (formatted_join s a) as [Hnone Hsome].
  split; [exact Hnone|]. split; [exact Hsome|].
  intros Hs. apply Hsome. apply (attendance_fk s Hs a Ha).
Qed.

Lemma format_record_joins_employee_witness :
  AttendanceService.RecordDict.employee_name
    (formatted orphan_store (Attendance.Build "a1" "gone" 738000 "present" 11 11)) = None
  /\ AttendanceService.RecordDict.employee_code
       (formatted orphan_store (Attendance.Build "a1" "gone" 738000 "present" 11 11)) = None.
Proof.
  apply (proj1 (format_record_joins_employee orphan_store None None
                  [formatted orphan_store (Attendance.Build "a1" "gone" 738000 "present" 11 11)]
                  (formatted orphan_store (Attendance.Build "a1" "gone" 738000 "present" 11 11))
                  eq_refl (or_introl eq_refl))).
  reflexivity.
Defined.

(** ** Marking, then reading *)

Lemma one_day_bounds (emp : string) (d : Z) (a : Attendance.t) :
  String.eqb (Attendance.employee_id a) emp
  && AttendanceService.date_bounds (Some d) (Some d) a
  = same_employee_date emp d a.
Proof.
  unfold AttendanceService.date_bounds, same_employee_date. f_equal.
  destruct (Attendance.date a =? d) eqn:E.
  - apply Z.eqb_eq in E. rewrite E, Z.leb_refl. reflexivity.
  - apply Z.eqb_neq in E.
    destruct (d <=? Attendance.date a) eqn:E1, (Attendance.date a <=? d) eqn:E2;
      try reflexivity.
    apply Z.leb_le in E1, E2. lia.
Qed.

(** X6.  On a store that satisfies the constraints, for an employee that
    exists and a fresh UUID, [mark_attendance] returns a record with the
    employee id, date and status of the call, joined with the full name
    and code of that employee; listing that employee's records of that
    one day right afterwards returns exactly this record. *)
Theorem mark_attendance_then_list :
  forall (s : Store) (emp : string) (d : Z) (v uuid4 : string) (now : Z),
    consistent s ->
    has_employee_pk s emp = true ->
    has_attendance_pk s uuid4 = false ->
    exists r db e,
      request (AttendanceService.mark_attendance emp d v uuid4 now) s = (Return r, db)
      /\ In e (employees s)
      /\ Employee.id e = emp
      /\ AttendanceService.RecordDict.employee_id r = emp
      /\ AttendanceService.RecordDict.date r = d
      /\ AttendanceService.RecordDict.status r = v
      /\ AttendanceService.RecordDict.employee_name r = Some (Employee.full_name e)
      /\ AttendanceService.RecordDict.employee_code r = Some (Employee.employee_id e)
      /\ fst (request (AttendanceService.get_attendance_by_employee emp (Some d) (Some d))
                      (store db))
         = Return [r].
Proof.
  intros s emp d v uuid4 now Hs Hemp Hfresh.
  destruct (mark_attendance_succeeds s emp d v uuid4 now Hs Hemp (fun _ => Hfresh))
    as (s1 & row & lg & Hrun & Hs1 & Hemps & Hat & Hv & _ & _).
  assert (Hemp1 : has_employee_pk s1 emp = true)
    by (unfold has_employee_pk; rewrite Hemps; exact Hemp).
  assert (Hrow : In row (records_at s1 emp d)) by (rewrite Hat; left; reflexivity).
  apply filter_In in Hrow. destruct Hrow as [Hin Hkey].
  apply same_employee_date_iff in Hkey. injection Hkey as Hid Hdate.
  destruct (proj2 (formatted_join s1 row)) as (e & He & Heid & Hname & Hcode).
  { rewrite Hid. exact Hemp1. }
  exists (formatted s1 row), (closed_session s1 lg), e.
  split; [exact Hrun|].
  split; [rewrite <- Hemps; exact He|].
  split; [congruence|].
  split; [exact Hid|]. split; [exact Hdate|]. split; [exact Hv|].
  split; [exact Hname|]. split; [exact Hcode|].
  simpl. rewrite (get_attendance_by_employee_run s1 emp _ _ Hemp1). simpl.
  rewrite (filter_ext _ _ (one_day_bounds emp d)).
  fold (records_at s1 emp d). rewrite Hat. reflexivity.
Qed.

Lemma mark_attendance_then_list_witness :
  exists r db,
    request (AttendanceService.mark_attendance "u1" 738000 "present" "a1" 11)
            one_employee_store = (Return r, db)
    /\ AttendanceService.RecordDict.employee_name r = Some "Eve"
    /\ fst (request (AttendanceService.get_attendance_by_employee
                       "u1" (Some 738000) (Some 738000)) (store db))
       = Return [r].
Proof.
  destruct (mark_attendance_then_list one_employee_store "u1" 738000 "present" "a1" 11)
    as (r & db & e & Hrun & He & _ & _ & _ & _ & Hname & _ & Hlist).
  - constructor; try nodup_closed. simpl. intros a [].
  - reflexivity.
  - reflexivity.
  - exists r, db. split; [exact Hrun|]. split; [|exact Hlist].
    rewrite Hname. destruct He as [<-|[]]. reflexivity.
Defined.

Lemma unique_key_injective {A} (g : A -> string) (l : list A) (x y : A) :
  NoDup (map g l) -> In x l -> In y l -> g x = g y -> x = y.
Proof.
  induction l as [|z l IH]; simpl; intros Hnd Hx Hy E; [contradiction|].
  inversion Hnd as [|k ks Hnotin Hnd']; subst.
  destruct Hx as [->|Hx], Hy as [->|Hy]; auto.
  - exfalso. apply Hnotin. rewrite E. apply in_map. exact Hy.
  - exfalso. apply Hnotin. rewrite <- E. apply in_map. exact Hx.
Qed.

Lemma with_status_set_other_keys
    (s : Store) (emp : string) (d : Z) (v : string) (now : Z) (existing : Attendance.t) :
  NoDup (map Attendance.id (attendance s)) ->
  In existing (attendance s) ->
  same_employee_date emp d existing = true ->
  filter (fun a => negb (same_employee_date emp d a))
         (attendance (with_status_set s (Attendance.id existing) v now))
  = filter (fun a => negb (same_employee_date emp d a)) (attendance s).
Proof.
  intros Hnd Hin Hkey. unfold with_status_set. simpl.
  rewrite filter_map_keeps.
  - rewrite <- (map_id (filter _ (attendance s))) at 2.
    apply map_ext_in. intros a Ha. apply filter_In in Ha. destruct Ha as [Ha Hne].
    destruct (String.eqb (Attendance.id a) (Attendance.id existing)) eqn:E; [|reflexivity].
    apply String.eqb_eq in E.
    rewrite (unique_key_injective Attendance.id _ a existing Hnd Ha Hin E) in Hne.
    rewrite Hkey in Hne. discriminate.
  - intros a. destruct (String.eqb (Attendance.id a) (Attendance.id existing));
      reflexivity.
Qed.

(** X7.  On a store that satisfies the constraints, a call of
    [mark_attendance], whatever its arguments and its answer, leaves the
    table of employees as it was and leaves the rows of every other
    (employee, date) key as they were, in the same order. *)
Theorem mark_attendance_frame :
  forall (s : Store) (c : mark_call),
    consistent s ->
    employees (after_mark s c) = employees s
    /\ filter (fun a => negb (same_employee_date (call_employee c) (call_date c) a))
              (attendance (after_mark s c))
       = filter (fun a => negb (same_employee_date (call_employee c) (call_date c) a))
                (attendance s).
Proof.
  intros s [emp d v uuid4 now] Hs. unfold after_mark. simpl.
  destruct (has_employee_pk s emp) eqn:Hemp.
  - destruct (find (same_employee_date emp d) (attendance s)) as [existing|] eqn:Hfind.
    + rewrite (mark_attendance_update s emp d v uuid4 now existing
                 (attendance_pk s Hs) Hemp Hfind).
      destruct (String.eqb (Attendance.status existing) v); simpl.
      * split; reflexivity.
      * split; [reflexivity|].
        apply find_some in Hfind. destruct Hfind as [Hin Hkey].
        apply (with_status_set_other_keys s emp d v now existing
                 (attendance_pk s Hs) Hin Hkey).
    + rewrite mark_attendance_run, Hemp, Hfind.
      destruct (refuses_attendance s (Attendance.Build uuid4 emp d v now now)) eqn:E.
      * rewrite mark_attendance_insert_conflict by exact E. split; reflexivity.
      * rewrite mark_attendance_insert_ok by exact E. simpl. split; [reflexivity|].
        rewrite filter_app. simpl. unfold same_employee_date at 2. simpl.
        rewrite String.eqb_refl, Z.eqb_refl. simpl. apply app_nil_r.
  - rewrite mark_attendance_run, Hemp. split; reflexivity.
Qed.

Lemma mark_attendance_frame_witness :
  employees (after_mark marked_store
               {| call_employee := "u1"; call_date := 738000; call_status := "absent";
                  call_uuid4 := "a9"; call_now := 20 |})
  = employees marked_store
  /\ filter (fun a => negb (same_employee_date "u1" 738000 a))
            (attendance (after_mark marked_store
                           {| call_employee := "u1"; call_date := 738000;
                              call_status := "absent"; call_uuid4 := "a9";
                              call_now := 20 |}))
     = [Attendance.Build "a2" "u2" 738000 "absent" 12 12;
        Attendance.Build "a3" "u1" 738001 "absent" 13 13].
Proof.
  apply (mark_attendance_frame marked_store
           {| call_employee := "u1"; call_date := 738000; call_status := "absent";
              call_uuid4 := "a9"; call_now := 20 |}).
  constructor; try nodup_closed.
  simpl. intros a [<-|[<-|[<-|[]]]]; reflexivity.
Defined.

(** X8.  On a store that satisfies the constraints, marking a day for
    which the employee already has a record keeps that record's id,
    employee, date and creation time and gives it the status of the call;
    when the status changes, its update time becomes the time of the
    call. *)
Theorem mark_attendance_keeps_identity :
  forall (s : Store) (emp : string) (d : Z) (v uuid4 : string) (now : Z)
         (existing : Attendance.t),
    consistent s ->
    has_employee_pk s emp = true ->
    find (same_employee_date emp d) (attendance s) = Some existing ->
    exists r row,
      fst (request (AttendanceService.mark_attendance emp d v uuid4 now) s) = Return r
      /\ records_at (after_mark s {| call_employee := emp; call_date := d;
                                     call_status := v; call_uuid4 := uuid4;
                                     call_now := now |}) emp d = [row]
      /\ r = formatted s row
      /\ Attendance.id row = Attendance.id existing
      /\ Attendance.employee_id row = Attendance.employee_id existing
      /\ Attendance.date row = Attendance.date existing
      /\ Attendance.created_at row = Attendance.created_at existing
      /\ Attendance.status row = v
      /\ (Attendance.status existing <> v -> Attendance.updated_at row = now).
Proof.
  intros s emp d v uuid4 now existing Hs Hemp Hfind.
  assert (Hin : In existing (attendance s)) by (apply find_some in Hfind; tauto).
  assert (Hkey : same_employee_date emp d existing = true)
    by (apply find_some in Hfind; tauto).
  assert (Hone := filter_key_unique _ emp d existing (attendance_key_unique s Hs) Hin Hkey).
  unfold after_mark. simpl.
  rewrite (mark_attendance_update s emp d v uuid4 now existing
             (attendance_pk s Hs) Hemp Hfind).
  destruct (String.eqb (Attendance.status existing) v) eqn:Hsame; simpl.
  - exists (formatted s existing), existing.
    apply String.eqb_eq in Hsame.
    repeat split; try assumption. intros Hne. contradiction.
  - exists (formatted s (Attendance.with_status v now existing)),
           (Attendance.with_status v now existing).
    repeat split.
    unfold records_at, with_status_set. simpl.
    rewrite filter_map_keeps.
    + rewrite Hone. simpl. rewrite String.eqb_refl. reflexivity.
    + intros a. destruct (String.eqb (Attendance.id a) (Attendance.id existing));
        reflexivity.
Qed.

Lemma mark_attendance_keeps_identity_witness :
  exists r row,
    fst (request (AttendanceService.mark_attendance "u1" 738000 "absent" "a9" 20)
                 marked_store) = Return r
    /\ Attendance.id row = "a1"
    /\ Attendance.created_at row = 11
    /\ Attendance.status row = "absent".
Proof.
  destruct (mark_attendance_keeps_identity marked_store "u1" 738000 "absent" "a9" 20
              (Attendance.Build "a1" "u1" 738000 "present" 11 11))
    as (r & row & Hrun & _ & _ & Hid & _ & _ & Hcreated & Hstatus & _).
  - constructor; try nodup_closed.
    simpl. intros a [<-|[<-|[<-|[]]]]; reflexivity.
  - reflexivity.
  - reflexivity.
  - exists r, row. repeat split; assumption.
Defined.

(** ** What every operation keeps, and what none does *)

(** X9.  The three operations that write keep every constraint of the
    schema: from a store that satisfies them, [mark_attendance],
    [create_employee] and [delete_employee] leave a store that satisfies
    them, whatever their arguments and whatever they answer. *)
Theorem writes_keep_constraints :
  forall (s : Store),
    consistent s ->
    (forall c : mark_call, consistent (after_mark s c))
    /\ (forall (upper lower : string -> string)
               (code name mail dept uuid4 : string) (now : Z),
           consistent
             (store (snd (request (EmployeeService.create_employee upper lower
                                     code name mail dept uuid4 now) s))))
    /\ (forall pk : string,
           consistent (store (snd (request (EmployeeService.delete_employee pk) s)))).
Proof.
  intros s Hs. split; [|split].
  - intros c. destruct (after_mark_cases s c) as [E|[[pk E]|[Hacc E]]]; rewrite E.
    + exact Hs.
    + apply (apply_change_consistent
               (Set_status pk (call_status c) (call_now c)) s _ Hs eq_refl).
    + apply (apply_change_consistent
               (Add_attendance
                  (Attendance.Build (call_uuid4 c) (call_employee c) (call_date c)
                                    (call_status c) (call_now c) (call_now c))) s _ Hs).
      simpl. unfold refuses_attendance in Hacc. simpl in Hacc. rewrite Hacc. reflexivity.
  - intros upper lower code name mail dept uuid4 now.
    rewrite create_employee_run.
    destruct (has_employee_code s (upper code)) eqn:Hc; [exact Hs|].
    destruct (has_employee_email s (lower mail)) eqn:Hm; [exact Hs|].
    destruct (has_employee_pk s uuid4) eqn:Hpk.
    + rewrite create_employee_insert_conflict by (rewrite Hpk; reflexivity). exact Hs.
    + rewrite create_employee_insert_ok by (rewrite Hpk, Hc, Hm; reflexivity).
      apply (apply_change_consistent
               (Add_employee (Employee.Build uuid4 (upper code) name (lower mail)
                                             dept now now)) s _ Hs).
      simpl. rewrite Hpk, Hc, Hm. reflexivity.
  - intros pk. rewrite delete_employee_run.
    destruct (has_employee_pk s pk); [|exact Hs].
    apply (apply_change_consistent (Delete_employee pk) s _ Hs eq_refl).
Qed.

Lemma writes_keep_constraints_witness :
  consistent (store (snd (request (EmployeeService.delete_employee "u1") marked_store))).
Proof.
  apply (proj2 (proj2 (writes_keep_constraints marked_store
                         (Build_consistent marked_store
                            ltac:(nodup_closed) ltac:(nodup_closed) ltac:(nodup_closed)
                            ltac:(nodup_closed) ltac:(nodup_closed)
                            ltac:(simpl; intros a [<-|[<-|[<-|[]]]]; reflexivity))))).
Defined.

Lemma reads_ret {A} (a : A) : reads_only (ret a).
Proof.
  intros db. simpl. repeat split. exists []. rewrite app_nil_r. split; reflexivity.
Qed.

Lemma reads_raise {A} (e : exn) : reads_only (@raise A e).
Proof.
  intros db. simpl. repeat split. exists []. rewrite app_nil_r. split; reflexivity.
Qed.

Lemma reads_gets {A} (f : Store -> A) : reads_only (gets f).
Proof.
  intros db. simpl. repeat split. exists []. rewrite app_nil_r. split; reflexivity.
Qed.

Lemma reads_select (t : table) : reads_only (sent (Select t)).
Proof.
  intros db. simpl. repeat split. exists [Select t]. split; reflexivity.
Qed.

Lemma reads_bind {A B} (c : M A) (k : A -> M B) :
  reads_only c -> (forall a, reads_only (k a)) -> reads_only (bind c k).
Proof.
  intros Hc Hk db. unfold bind.
  destruct (Hc db) as (Hs & Hp & lg & Hl & Hsel).
  destruct (c db) as [[a|e] db1]; simpl in *.
  - destruct (Hk a db1) as (Hs' & Hp' & lg' & Hl' & Hsel').
    split; [congruence|]. split; [congruence|].
    exists (lg ++ lg'). split.
    + rewrite Hl', Hl, app_assoc. reflexivity.
    + rewrite forallb_app, Hsel, Hsel'. reflexivity.
  - split; [exact Hs|]. split; [exact Hp|]. exists lg. split; assumption.
Qed.

Lemma reads_for_each {A B} (f : A -> M B) (l : list A) :
  (forall x, reads_only (f x)) -> reads_only (for_each f l).
Proof.
  intros Hf. induction l as [|x l IH]; simpl.
  - apply reads_ret.
  - apply reads_bind; [apply Hf|]. intros y.
    apply reads_bind; [exact IH|]. intros ys. apply reads_ret.
Qed.

(** Programs built from queries, [return] and [raise] only read. *)
Ltac reads :=
  repeat first
    [ apply reads_ret
    | apply reads_raise
    | apply reads_gets
    | apply reads_select
    | apply reads_for_each; intros
    | apply reads_bind; [|intros]
    | match goal with
      | |- reads_only (match ?x with _ => _ end) => destruct x
      end ].

Lemma reads_only_request {A} (c : M A) : reads_only c -> only_reads c.
Proof.
  intros H s. destruct (H (open_session s)) as (Hs & Hp & lg & Hl & Hsel).
  unfold request. rewrite Hs, Hp, Hl. repeat split. exact Hsel.
Qed.

(** X10.  The operations that answer a question never write: as a
    request on any store, each of them leaves the store as it was, leaves
    no change waiting for a commit and sends only SELECT statements,
    whether it returns or raises. *)
Theorem queries_only_read :
  only_reads EmployeeService.get_all_employees
  /\ (forall pk, only_reads (EmployeeService.get_employee_with_stats pk))
  /\ (forall pk, only_reads (EmployeeService.get_employee_by_id pk))
  /\ (forall upper code, only_reads (EmployeeService.get_employee_by_employee_id upper code))
  /\ (forall lower mail, only_reads (EmployeeService.get_employee_by_email lower mail))
  /\ only_reads EmployeeService.get_total_count
  /\ (forall start_date end_date,
         only_reads (AttendanceService.get_all_attendance start_date end_date))
  /\ (forall pk start_date end_date,
         only_reads (AttendanceService.get_attendance_by_employee pk start_date end_date))
  /\ (forall pk, only_reads (AttendanceService.get_attendance_stats pk))
  /\ (forall today, only_reads (AttendanceService.get_today_attendance_count today)).
Proof.
  repeat match goal with
         | |- _ /\ _ => split
         | |- forall _, _ => intro
         end;
    apply reads_only_request;
    unfold EmployeeService.get_all_employees, EmployeeService.get_employee_with_stats,
      EmployeeService.get_employee_by_id, EmployeeService.get_employee_by_employee_id,
      EmployeeService.get_employee_by_email, EmployeeService.get_total_count,
      AttendanceService.get_all_attendance, AttendanceService.get_attendance_by_employee,
      AttendanceService.get_attendance_stats, AttendanceService.get_today_attendance_count,
      AttendanceService._format_record, AttendanceService.truediv,
      query_employee_all, query_employee_first, query_employee_count,
      query_attendance_all, query_attendance_count, relationship_employee;
    reads.
Qed.

Lemma fst_bind_ret {A B} (c : M A) (g : A -> B) (db : Session) :
  fst (bind c (fun a => ret (g a)) db)
  = match fst (c db) with
    | Return a => Return (g a)
    | Raise e => Raise e
    end.
Proof.
  unfold bind, ret. destruct (c db) as [[a|e] db']; reflexivity.
Qed.

Lemma find_pk_of_in (l : list Attendance.t) (x : Attendance.t) :
  In x l -> exists r, find (fun y => String.eqb (Attendance.id y) (Attendance.id x)) l = Some r.
Proof.
  intros Hin.
  destruct (find_some_of_existsb
              (fun y => String.eqb (Attendance.id y) (Attendance.id x)) l)
    as (r & Hr & _).
  - apply existsb_exists. exists x. split; [exact Hin | apply String.eqb_refl].
  - exists r. exact Hr.
Qed.

(** [mark_attendance] answers with a record, the 404 or the 409 on every
    store. *)
Lemma mark_attendance_outcome
    (s : Store) (emp : string) (d : Z) (v uuid4 : string) (now : Z) :
  (exists r, fst (request (AttendanceService.mark_attendance emp d v uuid4 now) s)
             = Return r)
  \/ fst (request (AttendanceService.mark_attendance emp d v uuid4 now) s)
     = Raise (not_found emp)
  \/ fst (request (AttendanceService.mark_attendance emp d v uuid4 now) s)
     = Raise attendance_conflict.
Proof.
  rewrite mark_attendance_run.
  destruct (has_employee_pk s emp); [|right; left; reflexivity].
  destruct (find (same_employee_date emp d) (attendance s)) as [existing|] eqn:Hfind.
  - left. apply find_some in Hfind. destruct Hfind as [Hin _].
    destruct (find_pk_of_in _ _ Hin) as (r & Hr).
    unfold set_status.
    destruct (String.eqb (Attendance.status existing) v).
    + unfold db_commit, db_refresh_attendance, AttendanceService._format_record,
        relationship_employee, sent, gets, bind, ret, raise, closed_session.
      simpl. rewrite Hr. eexists. reflexivity.
    + unfold register, db_commit, db_refresh_attendance, AttendanceService._format_record,
        relationship_employee, sent, gets, bind, ret, raise, closed_session.
      simpl. rewrite find_map_keeps.
      * rewrite Hr. simpl. eexists. reflexivity.
      * intros a. destruct (String.eqb (Attendance.id a) (Attendance.id existing)) eqn:E;
          simpl; exact E.
  - destruct (refuses_attendance s (Attendance.Build uuid4 emp d v now now)) eqn:E.
    + right. right. rewrite mark_attendance_insert_conflict by exact E. reflexivity.
    + left. rewrite mark_attendance_insert_ok by exact E. eexists. reflexivity.
Qed.

(** X11.  No endpoint that calls these services is answered by the
    handler for unexpected errors: on every store and for every input,
    POST /attendance answers 201, 404 or 409 (201 for an update as for an
    insert), POST /employees 201 or 409, DELETE /employees/{id}, GET
    /employees/{id}, GET /attendance/employee/{id} and GET
    /attendance/stats/{id} 200 or 404, and the lists and the dashboard
    200. *)
Theorem endpoints_status_codes :
  forall (s : Store),
    (forall data uuid4 now,
        In (Main.status_code_of
              (Main.route Main.HTTP_201_CREATED
                 (fst (request (Api.mark_attendance data uuid4 now) s))))
           [201; 404; 409])
    /\ (forall upper lower code name mail dept uuid4 now,
           In (Main.status_code_of
                 (Main.route Main.HTTP_201_CREATED
                    (fst (request (Api.create_employee upper lower
                                     code name mail dept uuid4 now) s))))
              [201; 409])
    /\ (forall pk,
           In (Main.status_code_of
                 (Main.route Main.HTTP_200_OK
                    (fst (request (Api.delete_employee pk) s))))
              [200; 404])
    /\ (forall pk,
           In (Main.status_code_of
                 (Main.route Main.HTTP_200_OK (fst (request (Api.get_employee pk) s))))
              [200; 404])
    /\ (forall pk start_date end_date,
           In (Main.status_code_of
                 (Main.route Main.HTTP_200_OK
                    (fst (request (Api.get_employee_attendance pk start_date end_date) s))))
              [200; 404])
    /\ (forall pk,
           In (Main.status_code_of
                 (Main.route Main.HTTP_200_OK
                    (fst (request (Api.get_attendance_stats pk) s))))
              [200; 404])
    /\ (forall start_date end_date,
           Main.status_code_of
             (Main.route Main.HTTP_200_OK
                (fst (request (Api.get_all_attendance start_date end_date) s)))
           = 200)
    /\ (forall today,
           Main.status_code_of
             (Main.route Main.HTTP_200_OK
                (fst (request (Api.get_dashboard_stats today) s)))
           = 200).
Proof.
  intros s. repeat split.
  - intros data uuid4 now. unfold Api.mark_attendance.
    destruct (mark_attendance_outcome s
                (Api.AttendanceCreate.employee_id data) (Api.AttendanceCreate.date data)
                (Api.AttendanceStatusEnum.value (Api.AttendanceCreate.status data))
                uuid4 now) as [[r E]|[E|E]]; rewrite E; simpl; auto.
  - intros upper lower code name mail dept uuid4 now.
    unfold request, Api.create_employee. rewrite fst_bind_ret.
    fold (request (EmployeeService.create_employee upper lower
                     code name mail dept uuid4 now) s).
    destruct (request (EmployeeService.create_employee upper lower
                         code name mail dept uuid4 now) s) as [[e|e] db] eqn:E; simpl.
    + auto.
    + destruct (create_employee_failure upper lower _ _ _ _ _ _ _ _ _ E) as [Hc _].
      destruct e as [c detail| | |]; simpl in Hc; try discriminate.
      apply Z.eqb_eq in Hc. rewrite Hc. simpl. auto.
  - intros pk. unfold request, Api.delete_employee. rewrite fst_bind_ret.
    fold (request (EmployeeService.delete_employee pk) s).
    rewrite delete_employee_run. destruct (has_employee_pk s pk); simpl; auto.
  - intros pk.
    unfold request, Api.get_employee, EmployeeService.get_employee_with_stats,
      query_employee_first, query_attendance_count, bind, sent, gets, ret, raise.
    simpl. destruct (find _ (employees s)); simpl; auto.
  - intros pk start_date end_date.
    unfold request, Api.get_employee_attendance. rewrite fst_bind_ret.
    fold (request (AttendanceService.get_attendance_by_employee pk start_date end_date) s).
    destruct (has_employee_pk s pk) eqn:H.
    + rewrite (get_attendance_by_employee_run s pk _ _ H). simpl. auto.
    + apply find_none_of_existsb in H.
      unfold request, AttendanceService.get_attendance_by_employee, query_employee_first,
        bind, sent, gets.
      simpl. rewrite H. simpl. auto.
  - intros pk. unfold request, Api.get_attendance_stats. rewrite fst_bind_ret.
    fold (request (AttendanceService.get_attendance_stats pk) s).
    destruct (has_employee_pk s pk) eqn:H.
    + destruct (find_some_of_existsb _ _ H) as (e & Hfind & _).
      rewrite (get_attendance_stats_run s pk e Hfind). simpl. auto.
    + apply find_none_of_existsb in H.
      unfold request, AttendanceService.get_attendance_stats, query_employee_first,
        bind, sent, gets.
      simpl. rewrite H. simpl. auto.
  - intros start_date end_date. unfold request, Api.get_all_attendance.
    rewrite fst_bind_ret.
    fold (request (AttendanceService.get_all_attendance start_date end_date) s).
    rewrite get_all_attendance_run. reflexivity.
  - intros today. unfold request, Api.get_dashboard_stats. rewrite fst_bind_ret.
    fold (request (AttendanceService.get_today_attendance_count today) s).
    rewrite get_today_attendance_count_run. reflexivity.
Qed.

(** ** Creating, then reading *)

Lemma create_employee_returned_fresh
    (upper lower : string -> string) (s : Store)
    (code name mail dept uuid4 : string) (now : Z) (e : Employee.t) (db : Session) :
  request (EmployeeService.create_employee upper lower code name mail dept uuid4 now) s
  = (Return e, db) ->
  has_employee_pk s uuid4 = false
  /\ has_employee_code s (upper code) = false
  /\ has_employee_email s (lower mail) = false.
Proof.
  rewrite create_employee_run.
  destruct (has_employee_code s (upper code)) eqn:Hc; [discriminate|].
  destruct (has_employee_email s (lower mail)) eqn:Hm; [discriminate|].
  destruct (has_employee_pk s uuid4) eqn:Hpk; [|auto].
  rewrite create_employee_insert_conflict by (rewrite Hpk; reflexivity).
  discriminate.
Qed.

Lemma get_employee_by_run (p : Employee.t -> bool) (s : Store) :
  request (query_employee_first p) s
  = (Return (find p (employees s)), only_employee_lookup s).
Proof. reflexivity. Qed.

(** X12.  An employee that [create_employee] returned is found again:
    by its id, by every code with the same upper-case form as the code
    given, and by every email with the same lower-case form as the email
    given. *)
Theorem create_employee_then_lookup :
  forall (upper lower : string -> string) (s : Store)
         (code name mail dept uuid4 : string) (now : Z) (e : Employee.t) (db : Session),
    request (EmployeeService.create_employee upper lower code name mail dept uuid4 now) s
    = (Return e, db) ->
    fst (request (EmployeeService.get_employee_by_id (Employee.id e)) (store db))
    = Return (Some e)
    /\ (forall code',
           upper code' = upper code ->
           fst (request (EmployeeService.get_employee_by_employee_id upper code')
                        (store db))
           = Return (Some e))
    /\ (forall mail',
           lower mail' = lower mail ->
           fst (request (EmployeeService.get_employee_by_email lower mail') (store db))
           = Return (Some e)).
Proof.
  intros upper lower s code name mail dept uuid4 now e db Hrun.
  destruct (create_employee_returned_fresh _ _ _ _ _ _ _ _ _ _ _ Hrun) as (Hpk & Hc & Hm).
  destruct (create_employee_returned _ _ _ _ _ _ _ _ _ _ _ Hrun) as (He & Hemps & _).
  unfold EmployeeService.get_employee_by_id, EmployeeService.get_employee_by_employee_id,
    EmployeeService.get_employee_by_email.
  split; [|split]; intros; rewrite get_employee_by_run; simpl; rewrite Hemps; f_equal.
  - apply find_app_fresh; [|apply String.eqb_refl].
    rewrite He. exact Hpk.
  - apply find_app_fresh; [rewrite H; exact Hc|].
    rewrite H, He. apply String.eqb_refl.
  - apply find_app_fresh; [rewrite H; exact Hm|].
    rewrite H, He. apply String.eqb_refl.
Qed.

Lemma create_employee_then_lookup_witness :
  fst (request (EmployeeService.get_employee_by_employee_id upper_ascii "E001")
               one_employee_store)
  = Return (Some (Employee.Build "u1" "E001" "Eve" "a@x.com" "Eng" 10 10)).
Proof.
  apply (proj1 (proj2 (create_employee_then_lookup upper_ascii lower_ascii empty_store
                         "e001" "Eve" "A@X.com" "Eng" "u1" 10
                         (Employee.Build "u1" "E001" "Eve" "a@x.com" "Eng" 10 10)
                         (closed_session one_employee_store
                            [Select employees_table; Select employees_table;
                             Insert employees_table; Select employees_table])
                         eq_refl))
           "E001").
  reflexivity.
Defined.

Lemma get_employee_with_stats_run (s : Store) (pk : string) (e : Employee.t) :
  find (fun e => String.eqb (Employee.id e) pk) (employees s) = Some e ->
  request (EmployeeService.get_employee_with_stats pk) s
  = (Return (Some (employee_dict s e)),
     closed_session s [Select employees_table; Select attendance_table;
                       Select attendance_table]).
Proof.
  intros Hfind.
  unfold request, EmployeeService.get_employee_with_stats, query_employee_first,
    query_attendance_count, bind, sent, gets, ret.
  simpl. rewrite Hfind. simpl. rewrite !filter_andb. reflexivity.
Qed.

Lemma no_records_of_unknown (s : Store) (pk : string) :
  consistent s -> has_employee_pk s pk = false -> records_of s pk = [].
Proof.
  intros Hs Hpk. unfold records_of. apply filter_nil_of_existsb.
  destruct (existsb _ (attendance s)) eqn:E; [|reflexivity].
  apply existsb_exists in E. destruct E as (a & Ha & Heq).
  apply String.eqb_eq in Heq. rewrite <- Heq in Hpk.
  rewrite (attendance_fk s Hs a Ha) in Hpk. discriminate.
Qed.

(** X13.  On a store that satisfies the constraints, GET
    /employees/{id} right after a POST /employees that returned answers
    with the very body of that POST: the employee as stored, with zero
    present and zero absent days. *)
Theorem create_employee_then_get :
  forall (upper lower : string -> string) (s : Store)
         (code name mail dept uuid4 : string) (now : Z) (e : Employee.t) (db : Session),
    consistent s ->
    request (EmployeeService.create_employee upper lower code name mail dept uuid4 now) s
    = (Return e, db) ->
    fst (request (Api.create_employee upper lower code name mail dept uuid4 now) s)
    = Return (employee_dict (store db) e)
    /\ fst (request (Api.get_employee (Employee.id e)) (store db))
       = Return (employee_dict (store db) e)
    /\ EmployeeService.EmployeeDict.present_days (employee_dict (store db) e) = 0
    /\ EmployeeService.EmployeeDict.absent_days (employee_dict (store db) e) = 0.
Proof.
  intros upper lower s code name mail dept uuid4 now e db Hs Hrun.
  destruct (create_employee_returned_fresh _ _ _ _ _ _ _ _ _ _ _ Hrun) as (Hpk & _ & _).
  destruct (create_employee_returned _ _ _ _ _ _ _ _ _ _ _ Hrun) as (He & Hemps & Hatt).
  assert (Hnone : records_of (store db) (Employee.id e) = []).
  { unfold records_of. rewrite Hatt. fold (records_of s (Employee.id e)).
    apply no_records_of_unknown; [exact Hs | rewrite He; exact Hpk]. }
  assert (Hzero : forall v, days_with (store db) (Employee.id e) v = 0).
  { intros v. unfold days_with. rewrite Hnone. reflexivity. }
  assert (Hdict : employee_dict (store db) e
                  = EmployeeService.EmployeeDict.Build
                      (Employee.id e) (Employee.employee_id e) (Employee.full_name e)
                      (Employee.email e) (Employee.department e)
                      (Employee.created_at e) (Employee.updated_at e) 0 0).
  { unfold employee_dict. rewrite !Hzero. reflexivity. }
  split; [|split; [|split]].
  - unfold request, Api.create_employee. rewrite fst_bind_ret.
    fold (request (EmployeeService.create_employee upper lower
                     code name mail dept uuid4 now) s).
    rewrite Hrun. simpl. rewrite Hdict. reflexivity.
  - unfold request, Api.get_employee, bind at 1.
    fold (request (EmployeeService.get_employee_with_stats (Employee.id e)) (store db)).
    rewrite (get_employee_with_stats_run (store db) (Employee.id e) e).
    + reflexivity.
    + rewrite Hemps. apply find_app_fresh; [|apply String.eqb_refl].
      rewrite He. exact Hpk.
  - apply Hzero.
  - apply Hzero.
Qed.

Lemma create_employee_then_get_witness :
  fst (request (Api.get_employee "u1") one_employee_store)
  = Return (employee_dict one_employee_store
              (Employee.Build "u1" "E001" "Eve" "a@x.com" "Eng" 10 10)).
Proof.
  apply (proj1 (proj2 (create_employee_then_get upper_ascii lower_ascii empty_store
                         "e001" "Eve" "A@X.com" "Eng" "u1" 10
                         (Employee.Build "u1" "E001" "Eve" "a@x.com" "Eng" 10 10)
                         (closed_session one_employee_store
                            [Select employees_table; Select employees_table;
                             Insert employees_table; Select employees_table])
                         (Build_consistent empty_store
                            ltac:(nodup_closed) ltac:(nodup_closed) ltac:(nodup_closed)
                            ltac:(nodup_closed) ltac:(nodup_closed)
                            ltac:(simpl; intros a []))
                         eq_refl))).
Defined.

(** ** Employees with their counts *)

Lemma for_each_reads_run {A B} (f : A -> M B) (g : A -> B) (q : list stmt)
      (s : Store) (l : list A) (lg : list stmt) :
  (forall x lg', f x (closed_session s lg') = (Return (g x), closed_session s (lg' ++ q))) ->
  exists lg1,
    for_each f l (closed_session s lg) = (Return (map g l), closed_session s lg1).
Proof.
  intros Hf. revert lg. induction l as [|x l IH]; intros lg; simpl.
  - exists lg. reflexivity.
  - unfold bind at 1. rewrite Hf.
    destruct (IH (lg ++ q)) as (lg1 & E).
    unfold bind at 1. rewrite E. exists lg1. reflexivity.
Qed.

Lemma get_all_employees_run (s : Store) :
  exists lg,
    request EmployeeService.get_all_employees s
    = (Return (map (employee_dict s) (order_by_desc Employee.created_at (employees s))),
       closed_session s lg).
Proof.
  unfold request, EmployeeService.get_all_employees, query_employee_all.
  unfold bind at 1 2. unfold sent, gets. simpl.
  apply (for_each_reads_run _ (employee_dict s)
           [Select attendance_table; Select attendance_table]).
  intros e lg'.
  unfold query_attendance_count, bind, sent, gets, ret, closed_session. simpl.
  rewrite !filter_andb, <- app_assoc. reflexivity.
Qed.

(** X14.  [get_all_employees] returns one dict per employee row, in
    descending order of creation time, each with the employee's columns
    and the numbers of its records with status present and with status
    absent; it leaves the store as it was.  On a store with unique
    employee ids, each of these dicts is what [get_employee_with_stats]
    returns for that id. *)
Theorem get_all_employees_lists :
  forall (s : Store),
    exists ds db,
      request EmployeeService.get_all_employees s = (Return ds, db)
      /\ store db = s
      /\ pending db = []
      /\ Permutation ds (map (employee_dict s) (employees s))
      /\ descending EmployeeService.EmployeeDict.created_at ds
      /\ (NoDup (map Employee.id (employees s)) ->
          forall d, In d ds ->
                    fst (request (EmployeeService.get_employee_with_stats
                                    (EmployeeService.EmployeeDict.id d)) s)
                    = Return (Some d)).
Proof.
  intros s. destruct (get_all_employees_run s) as (lg & Hrun).
  eexists. eexists. split; [exact Hrun|]. simpl.
  split; [reflexivity|]. split; [reflexivity|]. split; [|split].
  - apply Permutation_map. apply order_by_desc_perm.
  - apply descending_map. apply (order_by_desc_descending Employee.created_at).
  - intros Hnd d Hd. apply in_map_iff in Hd. destruct Hd as (e & <- & He).
    apply in_order_by_desc in He. simpl.
    rewrite (get_employee_with_stats_run s (Employee.id e) e); [reflexivity|].
    apply (find_unique Employee.id _ _ Hnd He).
Qed.

Lemma get_all_employees_lists_witness :
  exists ds,
    fst (request EmployeeService.get_all_employees marked_store) = Return ds
    /\ forall d, In d ds ->
                 fst (request (EmployeeService.get_employee_with_stats
                                 (EmployeeService.EmployeeDict.id d)) marked_store)
                 = Return (Some d).
Proof.
  destruct (get_all_employees_lists marked_store)
    as (ds & db & Hrun & _ & _ & _ & _ & Hget).
  exists ds. split; [rewrite Hrun; reflexivity|].
  apply Hget. nodup_closed.
Defined.

(** X15.  For an employee that exists, [get_employee_with_stats] and
    [get_attendance_stats] agree: the same name and the same numbers of
    present and absent days, both numbers are not negative and their sum
    is at most [total_days]. *)
Theorem employee_counts_agree :
  forall (s : Store) (pk : string),
    has_employee_pk s pk = true ->
    exists d st,
      fst (request (EmployeeService.get_employee_with_stats pk) s) = Return (Some d)
      /\ fst (request (AttendanceService.get_attendance_stats pk) s) = Return st
      /\ EmployeeService.EmployeeDict.id d = pk
      /\ EmployeeService.EmployeeDict.full_name d
         = AttendanceService.StatsDict.employee_name st
      /\ EmployeeService.EmployeeDict.present_days d
         = AttendanceService.StatsDict.present_days st
      /\ EmployeeService.EmployeeDict.absent_days d
         = AttendanceService.StatsDict.absent_days st
      /\ 0 <= AttendanceService.StatsDict.present_days st
      /\ 0 <= AttendanceService.StatsDict.absent_days st
      /\ AttendanceService.StatsDict.present_days st
         + AttendanceService.StatsDict.absent_days st
         <= AttendanceService.StatsDict.total_days st.
Proof.
  intros s pk H.
  destruct (find_some_of_existsb _ _ H) as (e & Hfind & _ & He).
  apply String.eqb_eq in He. subst pk.
  eexists. eexists.
  rewrite (get_employee_with_stats_run s (Employee.id e) e Hfind).
  rewrite (get_attendance_stats_run s (Employee.id e) e Hfind).
  do 6 (split; [reflexivity|]).
  cbv beta iota delta [AttendanceService.StatsDict.present_days
                         AttendanceService.StatsDict.absent_days
                         AttendanceService.StatsDict.total_days].
  rewrite (stats_three_way s (Employee.id e)).
  unfold days_with, other_days. lia.
Qed.

Lemma employee_counts_agree_witness :
  exists d st,
    fst (request (EmployeeService.get_employee_with_stats "u1") marked_store)
    = Return (Some d)
    /\ fst (request (AttendanceService.get_attendance_stats "u1") marked_store) = Return st
    /\ EmployeeService.EmployeeDict.present_days d
       = AttendanceService.StatsDict.present_days st.
Proof.
  destruct (employee_counts_agree marked_store "u1" eq_refl)
    as (d & st & H1 & H2 & _ & _ & H3 & _).
  exists d, st. repeat split; assumption.
Defined.

(** ** Deleting, then counting and creating again *)

Lemma length_filter_split {A} (p : A -> bool) (l : list A) :
  (List.length (filter (fun x => negb (p x)) l) + List.length (filter p l)
   = List.length l)%nat.
Proof.
  induction l as [|x l IH]; simpl; [reflexivity|].
  destruct (p x); simpl; lia.
Qed.

Lemma length_filter_unique {A} (g : A -> string) (k : string) (l : list A) :
  NoDup (map g l) ->
  existsb (fun y => String.eqb (g y) k) l = true ->
  List.length (filter (fun y => String.eqb (g y) k) l) = 1%nat.
Proof.
  induction l as [|x l IH]; simpl; intros Hnd Hex; [discriminate|].
  inversion Hnd as [|k' ks Hnotin Hnd']; subst.
  destruct (String.eqb (g x) k) eqn:E; simpl.
  - rewrite filter_nil_of_existsb; [reflexivity|].
    destruct (existsb (fun y => String.eqb (g y) k) l) eqn:E'; [|reflexivity].
    exfalso. apply Hnotin. apply String.eqb_eq in E. rewrite E.
    apply existsb_exists in E'. destruct E' as (y & Hy & Ey).
    apply String.eqb_eq in Ey. rewrite <- Ey. apply in_map. exact Hy.
  - apply IH; assumption.
Qed.

(** X16.  On a store that satisfies the constraints, deleting an employee
    that exists lowers the number of employees by one and the number of
    attendance rows by the number of that employee's records. *)
Theorem delete_employee_counts :
  forall (s : Store) (pk : string),
    consistent s ->
    has_employee_pk s pk = true ->
    exists db,
      request (EmployeeService.delete_employee pk) s = (Return true, db)
      /\ fst (request EmployeeService.get_total_count (store db))
         = Return (total_employees_of s - 1)
      /\ Z.of_nat (List.length (attendance (store db)))
         = Z.of_nat (List.length (attendance s)) - total_days_of s pk.
Proof.
  intros s pk Hs Hpk.
  eexists. split; [rewrite delete_employee_run, Hpk; reflexivity|].
  simpl. split.
  - unfold request, EmployeeService.get_total_count, query_employee_count,
      bind, sent, gets. simpl. f_equal.
    unfold total_employees_of.
    assert (H1 := length_filter_split (fun e => String.eqb (Employee.id e) pk)
                    (employees s)).
    assert (H2 := length_filter_unique Employee.id pk (employees s)
                    (employee_pk s Hs) Hpk).
    lia.
  - unfold total_days_of, records_of.
    assert (H1 := length_filter_split (fun a => String.eqb (Attendance.employee_id a) pk)
                    (attendance s)).
    lia.
Qed.

Lemma delete_employee_counts_witness :
  exists db,
    request (EmployeeService.delete_employee "u1") marked_store = (Return true, db)
    /\ fst (request EmployeeService.get_total_count (store db)) = Return 1
    /\ Z.of_nat (List.length (attendance (store db))) = 1.
Proof.
  apply (delete_employee_counts marked_store "u1").
  - constructor; try nodup_closed.
    simpl. intros a [<-|[<-|[<-|[]]]]; reflexivity.
  - reflexivity.
Defined.

Lemma existsb_filter_false {A} (p q : A -> bool) (l : list A) :
  existsb p l = false -> existsb p (filter q l) = false.
Proof.
  intros H. destruct (existsb p (filter q l)) eqn:E; [|reflexivity].
  apply existsb_exists in E. destruct E as (x & Hx & Px).
  apply filter_In in Hx.
  rewrite (existsb_false_forall _ _ H x (proj1 Hx)) in Px. discriminate.
Qed.

Lemma unique_gone_after_delete (g : Employee.t -> string) (s : Store) (e : Employee.t) :
  NoDup (map g (employees s)) ->
  In e (employees s) ->
  existsb (fun y => String.eqb (g y) (g e))
          (employees (without_employee s (Employee.id e))) = false.
Proof.
  intros Hnd Hin.
  destruct (existsb _ (employees (without_employee s (Employee.id e)))) eqn:E;
    [|reflexivity].
  apply existsb_exists in E. destruct E as (y & Hy & Ey).
  simpl in Hy. apply filter_In in Hy. destruct Hy as [Hy Hne].
  apply String.eqb_eq in Ey.
  rewrite (unique_key_injective g _ y e Hnd Hy Hin Ey) in Hne.
  rewrite String.eqb_refl in Hne. discriminate.
Qed.

(** X17.  Deleting an employee frees its code and email.  On a store
    that satisfies the constraints, a create whose code and email
    normalize to those of an existing employee raises the 409; after
    that employee was deleted the same create, with an unused UUID,
    returns the new employee. *)
Theorem delete_employee_frees_code :
  forall (upper lower : string -> string) (s : Store) (e : Employee.t)
         (code name mail dept uuid4 : string) (now : Z),
    consistent s ->
    In e (employees s) ->
    upper code = Employee.employee_id e ->
    lower mail = Employee.email e ->
    has_employee_pk s uuid4 = false ->
    (exists detail db,
        request (EmployeeService.create_employee upper lower
                   code name mail dept uuid4 now) s
        = (Raise (HTTPException status.HTTP_409_CONFLICT detail), db))
    /\ (exists db1 db2,
           request (EmployeeService.delete_employee (Employee.id e)) s = (Return true, db1)
           /\ request (EmployeeService.create_employee upper lower
                         code name mail dept uuid4 now) (store db1)
              = (Return (Employee.Build uuid4 (upper code) name (lower mail) dept now now),
                 db2)).
Proof.
  intros upper lower s e code name mail dept uuid4 now Hs Hin Hcode Hmail Hfresh.
  assert (Hpk : has_employee_pk s (Employee.id e) = true).
  { apply existsb_exists. exists e. split; [exact Hin | apply String.eqb_refl]. }
  split.
  - destruct (create_employee_pre_query upper lower s code name mail dept uuid4 now)
      as (detail & lg & E).
    + left. rewrite Hcode. apply existsb_exists.
      exists e. split; [exact Hin | apply String.eqb_refl].
    + exists detail. eexists. exact E.
  - destruct (create_employee_succeeds upper lower
                (without_employee s (Employee.id e)) code name mail dept uuid4 now)
      as (db2 & E).
    + rewrite Hcode. apply (unique_gone_after_delete Employee.employee_id s e
                              (employee_code_unique s Hs) Hin).
    + rewrite Hmail. apply (unique_gone_after_delete Employee.email s e
                              (employee_email_unique s Hs) Hin).
    + apply existsb_filter_false. exact Hfresh.
    + eexists. exists db2. split; [rewrite delete_employee_run, Hpk; reflexivity|].
      exact E.
Qed.

Lemma delete_employee_frees_code_witness :
  exists db1 db2,
    request (EmployeeService.delete_employee "u1") one_employee_store = (Return true, db1)
    /\ request (EmployeeService.create_employee upper_ascii lower_ascii
                  "e001" "Eva" "A@x.com" "Ops" "u7" 30) (store db1)
       = (Return (Employee.Build "u7" "E001" "Eva" "a@x.com" "Ops" 30 30), db2).
Proof.
  apply (proj2 (delete_employee_frees_code upper_ascii lower_ascii one_employee_store
                  (Employee.Build "u1" "E001" "Eve" "a@x.com" "Eng" 10 10)
                  "e001" "Eva" "A@x.com" "Ops" "u7" 30
                  (Build_consistent one_employee_store
                     ltac:(nodup_closed) ltac:(nodup_closed) ltac:(nodup_closed)
                     ltac:(nodup_closed) ltac:(nodup_closed)
                     ltac:(simpl; intros a []))
                  (or_introl eq_refl) eq_refl eq_refl eq_refl)).
Defined.

(** ** Today *)

Lemma today_bounds (d : Z) (a : Attendance.t) :
  AttendanceService.date_bounds (Some d) (Some d) a = (Attendance.date a =? d).
Proof.
  unfold AttendanceService.date_bounds.
  destruct (Attendance.date a =? d) eqn:E.
  - apply Z.eqb_eq in E. rewrite E, Z.leb_refl. reflexivity.
  - apply Z.eqb_neq in E.
    destruct (d <=? Attendance.date a) eqn:E1, (Attendance.date a <=? d) eqn:E2;
      try reflexivity.
    apply Z.leb_le in E1, E2. lia.
Qed.

Lemma marked_with_records_on (s : Store) (d : Z) (v : string) :
  marked_with s d v
  = Z.of_nat (List.length (filter (fun a => String.eqb (Attendance.status a) v)
                                  (records_on s d))).
Proof.
  unfold marked_with, records_on. rewrite filter_andb. reflexivity.
Qed.

Lemma marked_three_way (s : Store) (d : Z) :
  Z.of_nat (List.length (records_on s d))
  = marked_with s d PRESENT_value + marked_with s d ABSENT_value
    + Z.of_nat (List.length (filter other_status (records_on s d))).
Proof.
  rewrite !marked_with_records_on, <- !Nat2Z.inj_add. f_equal.
  unfold other_status. apply length_filter_three_way.
  intros a Ha. apply String.eqb_eq in Ha. rewrite Ha. reflexivity.
Qed.

(** X18.  GET /attendance/today answers with the records dated today and
    their number.  The dashboard's [marked_today] of the same day is at
    most that number, and equal to it when every record of today has
    status present or absent. *)
Theorem today_attendance_and_dashboard :
  forall (s : Store) (today : Z),
    exists t d,
      fst (request (Api.get_today_attendance today) s) = Return t
      /\ fst (request (AttendanceService.get_today_attendance_count today) s) = Return d
      /\ Api.TodayAttendance.total t
         = Z.of_nat (List.length (Api.TodayAttendance.attendance t))
      /\ Api.TodayAttendance.total t = Z.of_nat (List.length (records_on s today))
      /\ (forall r, In r (Api.TodayAttendance.attendance t) ->
                    AttendanceService.RecordDict.date r = today)
      /\ AttendanceService.TodayDict.marked_today d <= Api.TodayAttendance.total t
      /\ ((forall a, In a (records_on s today) ->
                     Attendance.status a = "present" \/ Attendance.status a = "absent") ->
          AttendanceService.TodayDict.marked_today d = Api.TodayAttendance.total t).
Proof.
  intros s today. eexists. eexists.
  unfold request at 1. unfold Api.get_today_attendance. rewrite fst_bind_ret.
  fold (request (AttendanceService.get_all_attendance (Some today) (Some today)) s).
  rewrite get_all_attendance_run, get_today_attendance_count_run.
  rewrite (filter_ext _ _ (today_bounds today)). fold (records_on s today).
  cbv beta iota delta [fst Api.TodayAttendance.total Api.TodayAttendance.attendance
                           AttendanceService.TodayDict.marked_today].
  split; [reflexivity|]. split; [reflexivity|]. split; [reflexivity|].
  assert (Hlen : List.length (map (formatted s)
                                  (order_by_desc Attendance.date (records_on s today)))
                 = List.length (records_on s today)).
  { rewrite length_map. apply Permutation_length, order_by_desc_perm. }
  split; [rewrite Hlen; reflexivity|]. split; [|split].
  - intros r Hr. apply in_map_iff in Hr. destruct Hr as (a & <- & Ha).
    apply in_order_by_desc in Ha. apply filter_In in Ha. destruct Ha as [_ Ha].
    simpl. apply Z.eqb_eq. exact Ha.
  - rewrite Hlen, (marked_three_way s today). lia.
  - intros Hstatus. rewrite Hlen, (marked_three_way s today).
    rewrite (filter_nil_of_existsb other_status); [simpl; lia|].
    destruct (existsb other_status (records_on s today)) eqn:E; [|reflexivity].
    apply existsb_exists in E. destruct E as (a & Ha & Hother).
    unfold other_status in Hother.
    destruct (Hstatus a Ha) as [E|E]; rewrite E in Hother; discriminate.
Qed.

Lemma today_attendance_and_dashboard_witness :
  exists t d,
    fst (request (Api.get_today_attendance 738000) marked_store) = Return t
    /\ fst (request (AttendanceService.get_today_attendance_count 738000) marked_store)
       = Return d
    /\ AttendanceService.TodayDict.marked_today d = Api.TodayAttendance.total t.
Proof.
  destruct (today_attendance_and_dashboard marked_store 738000)
    as (t & d & H1 & H2 & _ & _ & _ & _ & Heq).
  exists t, d. split; [exact H1|]. split; [exact H2|].
  apply Heq. simpl. intros a [<-|[<-|[]]]; auto.
Defined.

Lemma records_on_employees_nodup (s : Store) (d : Z) :
  unique_employee_date s -> NoDup (map Attendance.employee_id (records_on s d)).
Proof.
  unfold unique_employee_date, records_on.
  induction (attendance s) as [|a l IH]; simpl; intros H; [constructor|].
  inversion H as [|k ks Hnotin Hnd]; subst.
  destruct (Attendance.date a =? d) eqn:E; simpl; [|auto].
  constructor; [|auto].
  intros Hin. apply in_map_iff in Hin. destruct Hin as (b & Hid & Hb).
  apply filter_In in Hb. destruct Hb as [Hb Eb].
  apply Hnotin. apply in_map_iff. exists b. split; [|exact Hb].
  apply Z.eqb_eq in E, Eb. unfold employee_date. congruence.
Qed.

(** X19.  On a store that satisfies the constraints the dashboard never
    shows more marked than employees: [marked_today] is at most
    [total_employees], so [unmarked_today] is not negative. *)
Theorem today_unmarked_not_negative :
  forall (s : Store) (today : Z),
    consistent s ->
    exists d,
      fst (request (AttendanceService.get_today_attendance_count today) s) = Return d
      /\ 0 <= AttendanceService.TodayDict.marked_today d
      /\ AttendanceService.TodayDict.marked_today d
         <= AttendanceService.TodayDict.total_employees d
      /\ 0 <= AttendanceService.TodayDict.unmarked_today d.
Proof.
  intros s today Hs. eexists.
  rewrite get_today_attendance_count_run.
  cbv beta iota delta [fst AttendanceService.TodayDict.marked_today
                           AttendanceService.TodayDict.total_employees
                           AttendanceService.TodayDict.unmarked_today].
  split; [reflexivity|].
  assert (Hle : (List.length (records_on s today) <= List.length (employees s))%nat).
  { rewrite <- (length_map Attendance.employee_id (records_on s today)).
    rewrite <- (length_map Employee.id (employees s)).
    apply NoDup_incl_length.
    - apply records_on_employees_nodup. apply (attendance_key_unique s Hs).
    - intros pk Hpk. apply in_map_iff in Hpk. destruct Hpk as (a & <- & Ha).
      apply filter_In in Ha. destruct Ha as [Ha _].
      assert (Hfk := attendance_fk s Hs a Ha).
      apply existsb_exists in Hfk. destruct Hfk as (e & He & Heq).
      apply String.eqb_eq in Heq. rewrite <- Heq. apply in_map. exact He. }
  assert (H3 := marked_three_way s today).
  unfold total_employees_of.
  assert (0 <= marked_with s today PRESENT_value) by (unfold marked_with; lia).
  assert (0 <= marked_with s today ABSENT_value) by (unfold marked_with; lia).
  lia.
Qed.

Lemma today_unmarked_not_negative_witness :
  exists d,
    fst (request (AttendanceService.get_today_attendance_count 738000) marked_store)
    = Return d
    /\ 0 <= AttendanceService.TodayDict.unmarked_today d.
Proof.
  destruct (today_unmarked_not_negative marked_store 738000) as (d & Hrun & _ & _ & Hpos).
  - constructor; try nodup_closed.
    simpl. intros a [<-|[<-|[<-|[]]]]; reflexivity.
  - exists d. split; assumption.
Defined.

(** ** No present day *)

Lemma percentage_of_none (whole : Z) :
  0 < whole -> percentage 0 whole = Py.Float Py.fzero.
Proof.
  destruct whole as [|p|p]; intros H; try lia. reflexivity.
Qed.

(** X20.  For an employee that exists and has no record with status
    present, [attendance_percentage] is the float [0.0], whether the
    employee has records or not. *)
Theorem attendance_percentage_without_present :
  forall (s : Store) (pk : string),
    has_employee_pk s pk = true ->
    days_with s pk "present" = 0 ->
    exists st,
      fst (request (AttendanceService.get_attendance_stats pk) s) = Return st
      /\ AttendanceService.StatsDict.present_days st = 0
      /\ AttendanceService.StatsDict.attendance_percentage st = Py.Float Py.fzero.
Proof.
  intros s pk H Hnone.
  destruct (find_some_of_existsb _ _ H) as (e & Hfind & _ & _).
  eexists. rewrite (get_attendance_stats_run s pk e Hfind).
  cbv beta iota delta [fst AttendanceService.StatsDict.present_days
                           AttendanceService.StatsDict.attendance_percentage].
  split; [reflexivity|]. split; [exact Hnone|].
  change (days_with s pk PRESENT_value) with (days_with s pk "present").
  rewrite Hnone.
  destruct (total_days_of s pk >? 0) eqn:E; [|reflexivity].
  apply percentage_of_none. lia.
Qed.

Lemma attendance_percentage_without_present_witness :
  exists st,
    fst (request (AttendanceService.get_attendance_stats "u2") marked_store) = Return st
    /\ AttendanceService.StatsDict.attendance_percentage st = Py.Float Py.fzero.
Proof.
  destruct (attendance_percentage_without_present marked_store "u2" eq_refl eq_refl)
    as (st & Hrun & _ & Hzero).
  exists st. split; assumption.
Defined.
